(** * firestore-test-utils: an in-memory mock of the Firestore admin client

    Shallow embedding of [src/firestore-test-utils.ts] and the properties of
    its query engine, document handles, batch coordinator and path resolver.

    Modelling conventions.
    - JavaScript values are the data a Firestore document can hold (null,
      booleans, numbers, strings, native dates, arrays, maps) plus the
      nullary closures the mock Timestamp carries ([toDate], [toMillis]).
      Numbers are exact integers or NaN; double rounding, infinities and
      fractions are outside the model.
    - Objects are association lists in property creation order without
      repeated keys; [Object_entries] gives the enumeration order of the
      language (array-index keys first, ascending; then creation order).
    - Plain objects convert to primitives with the methods inherited from
      [Object.prototype]: property names that shadow members of
      [Object.prototype] are outside the model, and so are getters, proxies,
      symbols and big integers.
    - Two distinct object literals are never the same reference: [===] and
      [includes] on objects (arrays, maps, dates, closures) answer [false].
      Identity of the memoized handles is modelled with allocation numbers.
    - A promise that the source resolves at once is its resolved value; the
      call records kept by the [jest.fn] wrappers are not modelled.
    - What the host engine decides (parsing a string as a number or a date,
      printing a date or a closure, [Math.random]) is a field of [Host]. *)

From Stdlib Require Import ZArith String Ascii DecimalString Permutation Sorted.
From stdpp Require Import base gmap strings list.

Local Open Scope string_scope.
Local Open Scope Z_scope.
Set Warnings "-register-all".

(** ** Numbers and values *)

Inductive num : Type :=
| NaN
| Int (z : Z).

Inductive value : Type :=
| VUndefined
| VNull
| VBool (b : bool)
| VNum (n : num)
| VStr (s : string)
| VDate (t : num)                       (* native Date, by its time value *)
| VArr (l : list value)
| VObj (o : list (string * value))
| VFun (r : value).                     (* [() => r] *)

(** [DocumentData], [CollectionData], [MockDbData] of the source. *)
Definition omap (A : Type) : Type := list (string * A).
Definition DocumentData : Type := omap value.
Definition CollectionData : Type := omap DocumentData.
Definition MockDbData : Type := omap CollectionData.

Record Host : Type := {
  string_to_number : string -> num;      (* Number(s) *)
  date_parse : string -> num;            (* new Date(s).getTime() *)
  date_to_string : num -> string;        (* String(date) *)
  function_to_string : value -> string;  (* String(closure) *)
  math_random : nat -> string            (* String(Math.random()), n-th draw *)
}.

(** ** Objects as ordered maps *)

Fixpoint omap_get {A} (k : string) (o : omap A) : option A :=
  match o with
  | [] => None
  | (k', v) :: r => if String.eqb k k' then Some v else omap_get k r
  end.

(** [o[k] = v]: an existing property keeps its place, a new one goes last. *)
Fixpoint omap_set {A} (k : string) (v : A) (o : omap A) : omap A :=
  match o with
  | [] => [(k, v)]
  | (k', v') :: r =>
      if String.eqb k k' then (k', v) :: r else (k', v') :: omap_set k v r
  end.

(** [delete o[k]]. *)
Fixpoint omap_delete {A} (k : string) (o : omap A) : omap A :=
  match o with
  | [] => []
  | (k', v') :: r =>
      if String.eqb k k' then omap_delete k r else (k', v') :: omap_delete k r
  end.

Definition is_digit (c : ascii) : bool :=
  (48 <=? nat_of_ascii c)%nat && (nat_of_ascii c <=? 57)%nat.

Fixpoint digits_value (s : string) (acc : N) : option N :=
  match s with
  | EmptyString => Some acc
  | String c r =>
      if is_digit c
      then digits_value r (10 * acc + N.of_nat (nat_of_ascii c - 48))%N
      else None
  end.

(** A canonical array index: decimal, no leading zero, below 2^32 - 1. *)
Definition array_index (s : string) : option N :=
  match s with
  | EmptyString => None
  | String c r =>
      if Ascii.eqb c "0" && negb (String.eqb r EmptyString) then None
      else match digits_value s 0%N with
           | Some n => if (n <? 4294967295)%N then Some n else None
           | None => None
           end
  end.

Fixpoint insert_index {A} (x : N * A) (l : list (N * A)) : list (N * A) :=
  match l with
  | [] => [x]
  | y :: r => if (fst x <? fst y)%N then x :: y :: r else y :: insert_index x r
  end.

Definition sort_index {A} (l : list (N * A)) : list (N * A) :=
  foldr insert_index [] l.

Fixpoint index_entries {A} (o : omap A) : list (N * (string * A)) :=
  match o with
  | [] => []
  | (k, v) :: r =>
      match array_index k with
      | Some n => (n, (k, v)) :: index_entries r
      | None => index_entries r
      end
  end.

Fixpoint named_entries {A} (o : omap A) : omap A :=
  match o with
  | [] => []
  | (k, v) :: r =>
      match array_index k with
      | Some _ => named_entries r
      | None => (k, v) :: named_entries r
      end
  end.

(** [Object.entries(o)]. *)
Definition Object_entries {A} (o : omap A) : list (string * A) :=
  map snd (sort_index (index_entries o)) ++ named_entries o.

(** [{ ...target, ...src }], also [Object.assign(target, src)]. *)
Definition spread {A} (target src : omap A) : omap A :=
  fold_left (fun t kv => omap_set (fst kv) (snd kv) t) (Object_entries src) target.

(** ** Coercions of the language *)

Section Coercions.
Variable host : Host.

Definition number_to_string (n : num) : string :=
  match n with
  | NaN => "NaN"
  | Int z => NilZero.string_of_int (Z.to_int z)
  end.

(** [String(v)]; an array joins its elements with commas. *)
Fixpoint to_string (v : value) : string :=
  match v with
  | VUndefined => "undefined"
  | VNull => "null"
  | VBool true => "true"
  | VBool false => "false"
  | VNum n => number_to_string n
  | VStr s => s
  | VDate t => date_to_string host t
  | VArr l =>
      (fix join (l : list value) : string :=
         match l with
         | [] => ""
         | x :: r =>
             let sx := match x with
                       | VUndefined | VNull => ""
                       | _ => to_string x
                       end in
             match r with
             | [] => sx
             | _ :: _ => sx +:+ "," +:+ join r
             end
         end) l
  | VObj _ => "[object Object]"
  | VFun r => function_to_string host r
  end.

(** [ToPrimitive(v, number)]. *)
Definition to_primitive (v : value) : value :=
  match v with
  | VDate t => VNum t
  | VArr _ | VObj _ | VFun _ => VStr (to_string v)
  | _ => v
  end.

(** [Number(v)]. *)
Definition to_number (v : value) : num :=
  match to_primitive v with
  | VUndefined => NaN
  | VNull => Int 0
  | VBool true => Int 1
  | VBool false => Int 0
  | VNum n => n
  | VStr s => string_to_number host s
  | _ => NaN
  end.

Definition num_lt (a b : num) : option bool :=
  match a, b with
  | Int x, Int y => Some (x <? y)
  | _, _ => None
  end.

Definition num_eq (a b : num) : bool :=
  match a, b with
  | Int x, Int y => x =? y
  | _, _ => false
  end.

(** The abstract relational comparison; [None] is "undefined". *)
Definition js_lt (a b : value) : option bool :=
  match to_primitive a, to_primitive b with
  | VStr x, VStr y => Some (String.ltb x y)
  | pa, pb => num_lt (to_number pa) (to_number pb)
  end.

Definition lt (a b : value) : bool :=
  match js_lt a b with Some r => r | None => false end.
Definition gt (a b : value) : bool := lt b a.
Definition le (a b : value) : bool :=
  match js_lt b a with Some r => negb r | None => false end.
Definition ge (a b : value) : bool :=
  match js_lt a b with Some r => negb r | None => false end.

(** [a === b]. *)
Definition strict_eq (a b : value) : bool :=
  match a, b with
  | VUndefined, VUndefined => true
  | VNull, VNull => true
  | VBool x, VBool y => Bool.eqb x y
  | VNum x, VNum y => num_eq x y
  | VStr x, VStr y => String.eqb x y
  | _, _ => false
  end.

(** SameValueZero, the comparison of [Array.prototype.includes]. *)
Definition same_value_zero (a b : value) : bool :=
  match a, b with
  | VNum NaN, VNum NaN => true
  | _, _ => strict_eq a b
  end.

Definition includes (l : list value) (v : value) : bool :=
  existsb (fun x => same_value_zero x v) l.

(** [!!v]. *)
Definition truthy (v : value) : bool :=
  match v with
  | VUndefined | VNull => false
  | VBool b => b
  | VNum NaN => false
  | VNum (Int z) => negb (z =? 0)
  | VStr s => negb (String.eqb s "")
  | _ => true
  end.

(** [v[k]] for a property that only a plain object can own. *)
Definition prop (v : value) (k : string) : value :=
  match v with
  | VObj o => match omap_get k o with Some x => x | None => VUndefined end
  | _ => VUndefined
  end.

(** [typeof v === 'object' && v !== null]. *)
Definition is_object (v : value) : bool :=
  match v with
  | VDate _ | VArr _ | VObj _ => true
  | _ => false
  end.

Definition is_undefined (v : value) : bool :=
  match v with VUndefined => true | _ => false end.

(** [new Date(ms)] for a number: the time value is clipped and truncated. *)
Definition time_clip (scaled : Z) (unit : Z) : num :=
  if 8640000000000000 * unit <? Z.abs scaled then NaN
  else Int (Z.quot scaled unit).

(** [new Date(s * 1000 + n / 1e6)]. *)
Definition date_of_seconds_nanos (s n : num) : value :=
  match s, n with
  | Int s, Int n => VDate (time_clip (s * 1000000000 + n) 1000000)
  | _, _ => VDate NaN
  end.
End Coercions.

(** ** The mock Timestamp *)

Definition seconds_of (ms : num) : num :=
  match ms with Int z => Int (z / 1000) | NaN => NaN end.

Definition nanoseconds_of (ms : num) : num :=
  match ms with Int z => Int (Z.rem z 1000 * 1000000) | NaN => NaN end.

(** [Timestamp.fromDate(date)], [date] given by its time value. *)
Definition Timestamp_fromDate (date : num) : value :=
  VObj [("toDate", VFun (VDate date));
        ("toMillis", VFun (VNum date));
        ("_seconds", VNum (seconds_of date));
        ("_nanoseconds", VNum (nanoseconds_of date))].

(** [Timestamp.fromMillis(ms)]. *)
Definition Timestamp_fromMillis (ms : num) : value :=
  VObj [("toDate", VFun (VDate (match ms with
                                | Int z => time_clip z 1
                                | NaN => NaN
                                end)));
        ("toMillis", VFun (VNum ms));
        ("_seconds", VNum (seconds_of ms));
        ("_nanoseconds", VNum (nanoseconds_of ms))].

(** The Timestamp that [deepCloneWithTimestamp] rebuilds around [date]. *)
Definition clonedTimestamp (date : num) : value :=
  VObj [("_seconds", VNum (seconds_of date));
        ("_nanoseconds", VNum (nanoseconds_of date));
        ("toDate", VFun (VDate date));
        ("toMillis", VFun (VNum date))].

(** ** The state of one mock instance *)

(** A document mock. [mock_ref] numbers the allocation: two document mocks
    are the same object exactly when they carry the same number. *)
Record DocMock : Type := {
  mock_ref : nat;
  collectionPath : string;
  docId : value;
  doc_path : string
}.

Record CollectionMock : Type := {
  coll_ref : nat;
  coll_path : string
}.

Record Filter : Type := {
  field : string;
  op : string;
  filter_value : value
}.

Record OrderBy : Type := {
  order_field : string;
  direction : string
}.

(** The [options] a query chain closes over, and the collection it reads. *)
Record QueryChain : Type := {
  query_path : string;
  filters : list Filter;
  limit : option num;
  orderBy : option OrderBy
}.

Record SetOptions : Type := { merge : option bool }.

(** The entries [mockBatch] pushes on [_operations]. *)
Inductive Operation : Type :=
| OpSet (ref : DocMock) (data : DocumentData) (options : option SetOptions)
| OpUpdate (ref : DocMock) (data : DocumentData)
| OpDelete (ref : DocMock).

Record Mock : Type := {
  dbData : MockDbData;
  operations : list Operation;                   (* mockBatch._operations *)
  collectionMocks : gmap string CollectionMock;
  docMocks : gmap string DocMock;
  allocated : nat;                               (* objects created so far *)
  draws : nat                                    (* Math.random calls so far *)
}.

Definition with_dbData (db : MockDbData) (m : Mock) : Mock :=
  {| dbData := db; operations := operations m;
     collectionMocks := collectionMocks m; docMocks := docMocks m;
     allocated := allocated m; draws := draws m |}.

Definition with_operations (ops : list Operation) (m : Mock) : Mock :=
  {| dbData := dbData m; operations := ops;
     collectionMocks := collectionMocks m; docMocks := docMocks m;
     allocated := allocated m; draws := draws m |}.

(** The instance right after [createFirestoreMock], its store holding [db].
    The source first deep-clones the seed it is given; [db] is the store
    after that clone, of which only the Timestamp it rebuilds is modelled
    ([clonedTimestamp]). *)
Definition fresh_mock (db : MockDbData) : Mock :=
  {| dbData := db; operations := [];
     collectionMocks := ∅; docMocks := ∅; allocated := 0; draws := 0 |}.

(** [() => dbData[collectionPath]?.[docId]] or [() => rest]. *)
Inductive DataClosure : Type :=
| LiveData (collectionPath : string) (key : string)
| FixedData (rest : DocumentData).

Record DocumentSnapshot : Type := {
  snap_id : value;
  exists_ : bool;
  data : DataClosure;
  ref : DocMock
}.

Record QuerySnapshot : Type := {
  docs : list DocumentSnapshot;
  empty : bool;
  size : nat
}.

Inductive outcome (A : Type) : Type :=
| Returned (a : A)
| Thrown (message : string).
Arguments Returned {A} a.
Arguments Thrown {A} message.

(** ** Store access *)

(** [dbData[c]?.[d]]. *)
Definition read_doc (db : MockDbData) (c d : string) : option DocumentData :=
  match omap_get c db with
  | Some coll => omap_get d coll
  | None => None
  end.

(** [if (!dbData[c]) dbData[c] = {}]. *)
Definition ensure_collection (c : string) (db : MockDbData) : MockDbData :=
  match omap_get c db with
  | Some _ => db
  | None => omap_set c [] db
  end.

(** [dbData[c][d] = fields], run where [dbData[c]] is known to exist. *)
Definition assign_doc (c d : string) (fields : DocumentData) (db : MockDbData)
  : MockDbData :=
  match omap_get c db with
  | Some coll => omap_set c (omap_set d fields coll) db
  | None => db
  end.

(** [delete dbData[c][d]], run where [dbData[c]] is known to exist. *)
Definition remove_doc (c d : string) (db : MockDbData) : MockDbData :=
  match omap_get c db with
  | Some coll => omap_set c (omap_delete d coll) db
  | None => db
  end.

(** [options?.merge] as a condition. *)
Definition merge_requested (options : option SetOptions) : bool :=
  match options with
  | Some {| merge := Some true |} => true
  | _ => false
  end.

(** [path.split('/')]. *)
Fixpoint split (sep : ascii) (s : string) : list string :=
  match s with
  | EmptyString => [EmptyString]
  | String c r =>
      if Ascii.eqb c sep then EmptyString :: split sep r
      else match split sep r with
           | seg :: segs => String c seg :: segs
           | [] => [String c EmptyString]
           end
  end.

(** ** The query engine, the document mocks and the batch *)

Section Engine.
Variable host : Host.

Definition is_date (v : value) : bool :=
  match v with VDate _ => true | _ => false end.

(** The local [toDate] of the filter callback. *)
Definition toDate (val : value) : value :=
  if negb (truthy val) then val
  else
    match val with
    | VDate _ => val
    | _ =>
        match prop val "toDate" with
        | VFun r => r
        | _ =>
            if is_object val && negb (is_undefined (prop val "_seconds"))
            then
              let nanos := prop val "_nanoseconds" in
              date_of_seconds_nanos
                (to_number host (prop val "_seconds"))
                (to_number host (if truthy nanos then nanos else VNum (Int 0)))
            else
              match val with
              | VStr s =>
                  match string_to_number host s with
                  | NaN =>
                      match date_parse host s with
                      | Int t => VDate (Int t)
                      | NaN => val
                      end
                  | Int _ => val
                  end
              | _ => val
              end
        end
    end.

Definition is_array (v : value) : bool :=
  match v with VArr _ => true | _ => false end.

Definition elements (v : value) : list value :=
  match v with VArr l => l | _ => [] end.

(** [filter.field === '__name__' ? doc.id : doc[filter.field]]. *)
Definition docValue_of (filter : Filter) (doc : DocumentData) : value :=
  if String.eqb (field filter) "__name__"
  then prop (VObj doc) "id"
  else prop (VObj doc) (field filter).

(** The callback of [allDocs.filter] for one filter. *)
Definition matches (filter : Filter) (doc : DocumentData) : bool :=
  let docValue := docValue_of filter doc in
  let comparableDocValue := toDate docValue in
  let comparableValue := toDate (filter_value filter) in
  let o := op filter in
  let v := filter_value filter in
  match comparableDocValue, comparableValue with
  | VDate a, VDate b =>
      if String.eqb o "==" then strict_eq (VNum a) (VNum b)
      else if String.eqb o ">=" then ge host (VNum a) (VNum b)
      else if String.eqb o "<=" then le host (VNum a) (VNum b)
      else if String.eqb o ">" then gt host (VNum a) (VNum b)
      else if String.eqb o "<" then lt host (VNum a) (VNum b)
      else false
  | _, _ =>
      if String.eqb o "==" then strict_eq docValue v
      else if String.eqb o "!=" then negb (strict_eq docValue v)
      else if String.eqb o ">" then gt host docValue v
      else if String.eqb o ">=" then ge host docValue v
      else if String.eqb o "<" then lt host docValue v
      else if String.eqb o "<=" then le host docValue v
      else if String.eqb o "in" then is_array v && includes (elements v) docValue
      else if String.eqb o "not-in"
           then negb (is_array v && includes (elements v) docValue)
      else if String.eqb o "array-contains"
           then is_array docValue && includes (elements docValue) v
      else if String.eqb o "array-contains-any"
           then is_array docValue && is_array v
                && existsb (fun x => includes (elements docValue) x) (elements v)
      else false
  end.

(** [({ id, ...data })]. *)
Definition doc_of_entry (e : string * DocumentData) : DocumentData :=
  spread [("id", VStr (fst e))] (snd e).

Definition apply_filters (fs : list Filter) (allDocs : list DocumentData)
  : list DocumentData :=
  fold_left (fun ds f => List.filter (matches f) ds) fs allDocs.

(** The comparator handed to [allDocs.sort]. *)
Definition compare_docs (o : OrderBy) (a b : DocumentData) : Z :=
  let valA := prop (VObj a) (order_field o) in
  let valB := prop (VObj b) (order_field o) in
  let order := if String.eqb (direction o) "desc" then -1 else 1 in
  if lt host valA valB then -1 * order
  else if gt host valA valB then 1 * order
  else 0.

(** [Array.prototype.sort] is stable; where the comparator is not a
    consistent order the language leaves the result to the engine, and the
    model takes the stable insertion sort. *)
Fixpoint insert_sorted {A} (cmp : A -> A -> Z) (x : A) (l : list A) : list A :=
  match l with
  | [] => [x]
  | y :: r => if 0 <? cmp x y then y :: insert_sorted cmp x r else x :: y :: r
  end.

Definition sort {A} (cmp : A -> A -> Z) (l : list A) : list A :=
  foldr (insert_sorted cmp) [] l.

(** [l.slice(0, n)]: a negative [n] counts from the end, NaN is 0. *)
Definition slice0 {A} (n : num) (l : list A) : list A :=
  match n with
  | NaN => []
  | Int z =>
      if z <? 0 then take (Z.to_nat (Z.max (Z.of_nat (length l) + z) 0)) l
      else take (Z.to_nat z) l
  end.

Definition getDocMock (c : string) (id : value) (m : Mock) : DocMock * Mock :=
  let path := c +:+ "/" +:+ to_string host id in
  match docMocks m !! path with
  | Some h => (h, m)
  | None =>
      let newMock := {| mock_ref := allocated m; collectionPath := c;
                        docId := id; doc_path := path |} in
      (newMock,
       {| dbData := dbData m; operations := operations m;
          collectionMocks := collectionMocks m;
          docMocks := <[path := newMock]> (docMocks m);
          allocated := S (allocated m); draws := draws m |})
  end.

Definition getCollectionMock (c : string) (m : Mock) : CollectionMock * Mock :=
  match collectionMocks m !! c with
  | Some cm => (cm, m)
  | None =>
      let newMock := {| coll_ref := allocated m; coll_path := c |} in
      (newMock,
       {| dbData := dbData m; operations := operations m;
          collectionMocks := <[c := newMock]> (collectionMocks m);
          docMocks := docMocks m;
          allocated := S (allocated m); draws := draws m |})
  end.

(** *** Query chains *)

(** [createQueryChain()], the chain a collection mock spreads into itself. *)
Definition createQueryChain (cm : CollectionMock) : QueryChain :=
  {| query_path := coll_path cm; filters := []; limit := None; orderBy := None |}.

Definition where_ (q : QueryChain) (f : string) (o : string) (v : value)
  : QueryChain :=
  {| query_path := query_path q;
     filters := filters q ++ [{| field := f; op := o; filter_value := v |}];
     limit := limit q; orderBy := orderBy q |}.

Definition orderBy_ (q : QueryChain) (f : string) (d : string) : QueryChain :=
  {| query_path := query_path q; filters := filters q; limit := limit q;
     orderBy := Some {| order_field := f; direction := d |} |}.

Definition limit_ (q : QueryChain) (limitValue : num) : QueryChain :=
  {| query_path := query_path q; filters := filters q;
     limit := Some limitValue; orderBy := orderBy q |}.

(** [startAfter] is [mockReturnThis]: the cursor is ignored. *)
Definition startAfter (q : QueryChain) (cursor : value) : QueryChain := q.

(** The documents a query keeps, after filtering, ordering and limiting. *)
Definition selected (q : QueryChain) (db : MockDbData) : list DocumentData :=
  let collectionData :=
    match omap_get (query_path q) db with Some c => c | None => [] end in
  let allDocs := map doc_of_entry (Object_entries collectionData) in
  let allDocs := apply_filters (filters q) allDocs in
  let allDocs :=
    match orderBy q with
    | Some o => sort (compare_docs o) allDocs
    | None => allDocs
    end in
  match limit q with
  | Some n => slice0 n allDocs
  | None => allDocs
  end.

(** [allDocs.map(doc => { const { id, ...rest } = doc; ... })]. *)
Fixpoint snapshots (c : string) (allDocs : list DocumentData) (m : Mock)
  : list DocumentSnapshot * Mock :=
  match allDocs with
  | [] => ([], m)
  | doc :: r =>
      let id := prop (VObj doc) "id" in
      let rest := omap_delete "id" (Object_entries doc) in
      let '(h, m1) := getDocMock c id m in
      let '(snaps, m2) := snapshots c r m1 in
      ({| snap_id := id; exists_ := true; data := FixedData rest; ref := h |}
         :: snaps, m2)
  end.

(** [get()] of a query chain. *)
Definition query_get (q : QueryChain) (m : Mock) : QuerySnapshot * Mock :=
  let '(ds, m') := snapshots (query_path q) (selected q (dbData m)) m in
  ({| docs := ds;
      empty := Nat.eqb (length ds) 0;
      size := length ds |}, m').

(** [snapshot.forEach(callback)], the callback folding a state. *)
Definition forEach {S} (snap : QuerySnapshot) (callback : DocumentSnapshot -> S -> S)
  (s : S) : S :=
  fold_left (fun acc d => callback d acc) (docs snap) s.

(** [snapshot.data()] at the moment it is called. *)
Definition call_data (d : DataClosure) (m : Mock) : option DocumentData :=
  match d with
  | LiveData c k => read_doc (dbData m) c k
  | FixedData rest => Some rest
  end.

(** *** Collection mocks *)

(** [Math.random()], printed. *)
Definition random (m : Mock) : string * Mock :=
  (math_random host (draws m),
   {| dbData := dbData m; operations := operations m;
      collectionMocks := collectionMocks m; docMocks := docMocks m;
      allocated := allocated m; draws := S (draws m) |}).

(** [collection.doc(docId?)]: a missing or empty [docId] draws a new id. *)
Definition coll_doc (cm : CollectionMock) (id : option string) (m : Mock)
  : DocMock * Mock :=
  match id with
  | Some (String _ _ as s) => getDocMock (coll_path cm) (VStr s) m
  | _ =>
      let '(r, m1) := random m in
      getDocMock (coll_path cm) (VStr ("mock-id-" +:+ r)) m1
  end.

(** [collection.add(data)]. *)
Definition coll_add (cm : CollectionMock) (fields : DocumentData) (m : Mock)
  : DocMock * Mock :=
  let '(r, m1) := random m in
  let newId := "new-doc-" +:+ r in
  let db := assign_doc (coll_path cm) newId fields
              (ensure_collection (coll_path cm) (dbData m1)) in
  getDocMock (coll_path cm) (VStr newId) (with_dbData db m1).

(** *** Document mocks *)

Definition doc_key (h : DocMock) : string := to_string host (docId h).

Definition doc_get (h : DocMock) (m : Mock) : DocumentSnapshot * Mock :=
  let '(self, m') := getDocMock (collectionPath h) (docId h) m in
  ({| snap_id := docId h;
      exists_ :=
        match read_doc (dbData m) (collectionPath h) (doc_key h) with
        | Some _ => true
        | None => false
        end;
      data := LiveData (collectionPath h) (doc_key h);
      ref := self |}, m').

Definition doc_set (h : DocMock) (fields : DocumentData)
  (options : option SetOptions) (m : Mock) : Mock :=
  let c := collectionPath h in
  let db := ensure_collection c (dbData m) in
  let db :=
    if merge_requested options then
      match read_doc db c (doc_key h) with
      | Some old => assign_doc c (doc_key h) (spread (spread [] old) fields) db
      | None => assign_doc c (doc_key h) fields db
      end
    else assign_doc c (doc_key h) fields db in
  with_dbData db m.

Definition doc_update (h : DocMock) (fields : DocumentData) (m : Mock) : Mock :=
  let c := collectionPath h in
  match read_doc (dbData m) c (doc_key h) with
  | Some old =>
      with_dbData (assign_doc c (doc_key h) (spread (spread [] old) fields)
                     (dbData m)) m
  | None => m
  end.

Definition doc_delete (h : DocMock) (m : Mock) : Mock :=
  let c := collectionPath h in
  match read_doc (dbData m) c (doc_key h) with
  | Some _ => with_dbData (remove_doc c (doc_key h) (dbData m)) m
  | None => m
  end.

(** [docRef.collection(subCollectionPath)]. *)
Definition doc_collection (h : DocMock) (subCollectionPath : string) (m : Mock)
  : CollectionMock * Mock :=
  getCollectionMock (doc_path h +:+ "/" +:+ subCollectionPath) m.

(** *** The batch *)

Definition batch_set (r : DocMock) (fields : DocumentData)
  (options : option SetOptions) (m : Mock) : Mock :=
  with_operations (operations m ++ [OpSet r fields options]) m.

Definition batch_update (r : DocMock) (fields : DocumentData) (m : Mock) : Mock :=
  with_operations (operations m ++ [OpUpdate r fields]) m.

Definition batch_delete (r : DocMock) (m : Mock) : Mock :=
  with_operations (operations m ++ [OpDelete r]) m.

Definition op_path (o : Operation) : string :=
  match o with
  | OpSet r _ _ | OpUpdate r _ | OpDelete r => doc_path r
  end.

(** [parts[0]] and [parts[1]] as property keys. *)
Definition first_part (parts : list string) : string :=
  match parts with p :: _ => p | [] => "undefined" end.

Definition second_part (parts : list string) : string :=
  match parts with _ :: d :: _ => d | _ => "undefined" end.

(** The body of the [forEach] in [commit]. An update assigns into the stored
    object in place; the store of the model holds values, not references, so
    the assignment rebuilds the document where it stands. *)
Definition apply_operation (db : MockDbData) (o : Operation) : MockDbData :=
  let parts := split "/" (op_path o) in
  let c := first_part parts in
  let d := second_part parts in
  match o with
  | OpDelete _ =>
      match read_doc db c d with
      | Some _ => remove_doc c d db
      | None => db
      end
  | OpUpdate _ fields =>
      match read_doc db c d with
      | Some old => assign_doc c d (spread old fields) db
      | None => db
      end
  | OpSet _ fields options =>
      let db := ensure_collection c db in
      if merge_requested options then
        match read_doc db c d with
        | Some old => assign_doc c d (spread (spread [] old) fields) db
        | None => assign_doc c d (spread [] fields) db
        end
      else assign_doc c d fields db
  end.

Definition commit (m : Mock) : Mock :=
  with_operations [] (with_dbData (fold_left apply_operation (operations m) (dbData m)) m).

(** *** The instance *)

Definition collection (path : string) (m : Mock) : CollectionMock * Mock :=
  getCollectionMock path m.

Definition invalid_path (path : string) : string :=
  "Invalid document path provided to mock: " +:+ path.

(** A missing segment and an empty one are both falsy. *)
Definition segment (parts : list string) (i : nat) : option string :=
  match parts !! i with
  | Some "" => None
  | other => other
  end.

Definition doc (path : string) (m : Mock) : outcome (DocMock * Mock) :=
  let parts := split "/" path in
  match segment parts 0, segment parts 1 with
  | Some c, Some d => Returned (getDocMock c (VStr d) m)
  | _, _ => Thrown (invalid_path path)
  end.

Definition __getInternalData (m : Mock) : MockDbData := dbData m.
End Engine.

(** ** A host to run examples on

    Decimal digit strings are numbers, no string is a date. *)
Definition sample_host : Host :=
  {| string_to_number := fun s =>
       match s with
       | EmptyString => Int 0
       | _ => match digits_value s 0%N with
              | Some n => Int (Z.of_N n)
              | None => NaN
              end
       end;
     date_parse := fun _ => NaN;
     date_to_string := fun _ => "Invalid Date";
     function_to_string := fun _ => "() => date";
     math_random := fun n => "0." +:+ NilZero.string_of_uint (Nat.to_uint (S n)) |}.

Fixpoint has_sep (sep : ascii) (s : string) : bool :=
  match s with
  | EmptyString => false
  | String c r => Ascii.eqb c sep || has_sep sep r
  end.

(** The operators the filter callback knows. *)
Definition recognized_operators : list string :=
  ["=="; "!="; "<"; "<="; ">"; ">="; "in"; "not-in";
   "array-contains"; "array-contains-any"].

(** A Temporal Value for the instant [t]: what [Timestamp.fromDate] and
    [Timestamp.fromMillis] build, and what the deep clone rebuilds. *)
Inductive TemporalValue (t : Z) : value -> Prop :=
| temporal_fromDate : TemporalValue t (Timestamp_fromDate (Int t))
| temporal_fromMillis :
    Z.abs t <= 8640000000000000 → TemporalValue t (Timestamp_fromMillis (Int t))
| temporal_cloned : TemporalValue t (clonedTimestamp (Int t)).

(** An object of the language owns each of its keys once. *)
Definition is_object_map {A} (o : omap A) : Prop := NoDup (o.*1).

(** [m'] is a state the instance can be in after [m]: whatever was memoized
    in [m] still is. *)
Definition later (m m' : Mock) : Prop :=
  collectionMocks m ⊆ collectionMocks m' ∧ docMocks m ⊆ docMocks m'.

(** The chain without its limit. *)
Definition unlimited (q : QueryChain) : QueryChain :=
  {| query_path := query_path q; filters := filters q; limit := None;
     orderBy := orderBy q |}.

(** What a result entry shows of the document it was made from. *)
Definition entry_of (doc : DocumentData) : value * DataClosure :=
  (prop (VObj doc) "id", FixedData (omap_delete "id" (Object_entries doc))).

(** The three documents of the ordering example. *)
Definition items_ABC : CollectionData :=
  [("item1", [("name", VStr "A"); ("order", VNum (Int 3))]);
   ("item2", [("name", VStr "B"); ("order", VNum (Int 1))]);
   ("item3", [("name", VStr "C"); ("order", VNum (Int 2))])].

(** The three documents of the date example, around their [eventDate]s. *)
Definition events (yesterday today tomorrow : value) : CollectionData :=
  [("event-yesterday", [("eventDate", yesterday)]);
   ("event-today", [("eventDate", today)]);
   ("event-tomorrow", [("eventDate", tomorrow)])].

(** The integer a document carries in [fld], for sorting on integers. *)
Definition order_key (fld : string) (d : DocumentData) : Z :=
  match prop (VObj d) fld with
  | VNum (Int z) => z
  | _ => 0
  end.

Definition has_integer (fld : string) (d : DocumentData) : Prop :=
  ∃ z, prop (VObj d) fld = VNum (Int z).

(** ** The deep clone and the creation of an instance *)

Section Clone.
Variable host : Host.

Definition is_function (v : value) : bool :=
  match v with VFun _ => true | _ => false end.

(** The test [deepCloneWithTimestamp] uses to take an object for a mock
    Timestamp. *)
Definition looks_like_timestamp (obj : value) : bool :=
  is_function (prop obj "toDate")
  || (negb (is_undefined (prop obj "_seconds"))
      && negb (is_undefined (prop obj "_nanoseconds"))).

(** [date.getTime()]; [None] where the call raises a TypeError. *)
Definition getTime_of (date : value) : option value :=
  match date with
  | VDate t => Some (VNum t)
  | VObj o =>
      match omap_get "getTime" o with
      | Some (VFun x) => Some x
      | _ => None
      end
  | _ => None
  end.

(** The Timestamp branch of [deepCloneWithTimestamp]; [None] where
    [obj.toDate()] or [date.getTime()] raises a TypeError. *)
Definition rebuildTimestamp (obj : value) : option value :=
  let date :=
    if truthy (prop obj "toDate")
    then match prop obj "toDate" with
         | VFun r => Some r
         | _ => None
         end
    else Some (date_of_seconds_nanos
                 (to_number host (prop obj "_seconds"))
                 (to_number host (prop obj "_nanoseconds"))) in
  match date with
  | Some date =>
      match getTime_of date with
      | Some time =>
          Some (VObj [("_seconds", VNum (seconds_of (to_number host time)));
                      ("_nanoseconds", VNum (nanoseconds_of (to_number host time)));
                      ("toDate", VFun date);
                      ("toMillis", VFun time)])
      | None => None
      end
  | None => None
  end.

(** [deepCloneWithTimestamp(obj)]; [None] where it raises a TypeError. The
    fields of a plain object are cloned and then laid out in enumeration
    order, as [Object.assign({}, obj)] followed by the [for ... in] loop
    leaves them. *)
Fixpoint deepCloneWithTimestamp (obj : value) : option value :=
  match obj with
  | VDate t => Some (VDate t)
  | VArr l =>
      option_map VArr
        ((fix each (l : list value) : option (list value) :=
            match l with
            | [] => Some []
            | x :: r =>
                match deepCloneWithTimestamp x, each r with
                | Some x', Some r' => Some (x' :: r')
                | _, _ => None
                end
            end) l)
  | VObj o =>
      if looks_like_timestamp obj then rebuildTimestamp obj
      else
        option_map (fun o' => VObj (Object_entries o'))
          ((fix each (o : list (string * value)) : option (list (string * value)) :=
              match o with
              | [] => Some []
              | (k, v) :: r =>
                  match deepCloneWithTimestamp v, each r with
                  | Some v', Some r' => Some ((k, v') :: r')
                  | _, _ => None
                  end
              end) o)
  | _ => Some obj
  end.

(** A store as the value it is. *)
Definition value_of_db (db : MockDbData) : value :=
  VObj (map (fun cc =>
               (fst cc, VObj (map (fun df => (fst df, VObj (snd df))) (snd cc))))
          db).

Definition fields_of_value (v : value) : option DocumentData :=
  match v with VObj o => Some o | _ => None end.

Fixpoint docs_of_entries (o : list (string * value)) : option CollectionData :=
  match o with
  | [] => Some []
  | (d, v) :: r =>
      match fields_of_value v, docs_of_entries r with
      | Some f, Some r' => Some ((d, f) :: r')
      | _, _ => None
      end
  end.

Fixpoint collections_of_entries (o : list (string * value)) : option MockDbData :=
  match o with
  | [] => Some []
  | (c, v) :: r =>
      match v with
      | VObj docs =>
          match docs_of_entries docs, collections_of_entries r with
          | Some coll, Some r' => Some ((c, coll) :: r')
          | _, _ => None
          end
      | _ => None
      end
  end.

(** The value read back as a store, where it has the shape of one. *)
Definition db_of_value (v : value) : option MockDbData :=
  match v with
  | VObj o => collections_of_entries o
  | _ => None
  end.

(** What [createFirestoreMock(initialData)] comes to. *)
Inductive creation : Type :=
| Created (m : Mock)
| CloneThrows
| NotAStore (cloned : value).

(** [createFirestoreMock(initialData)]: the store is the deep clone of the
    seed. Where the clone takes the seed, or one of its collections, for a
    Timestamp, what it leaves is not a store of documents. *)
Definition createFirestoreMock (initialData : MockDbData) : creation :=
  match deepCloneWithTimestamp (value_of_db initialData) with
  | Some v =>
      match db_of_value v with
      | Some db => Created (fresh_mock db)
      | None => NotAStore v
      end
  | None => CloneThrows
  end.
End Clone.

(** Data without closures, without objects the clone takes for a Timestamp,
    and whose objects have no array-index key. *)
Fixpoint plain (v : value) : bool :=
  match v with
  | VFun _ => false
  | VArr l => forallb plain l
  | VObj o =>
      negb (looks_like_timestamp v)
      && forallb (fun kv =>
                    match array_index (fst kv) with
                    | Some _ => false
                    | None => plain (snd kv)
                    end) o
  | _ => true
  end.

(** The documents of [l] whose integer in [fld] is [k], in the order of [l]. *)
Definition with_key (fld : string) (k : Z) (l : list DocumentData)
  : list DocumentData :=
  List.filter (fun d => order_key fld d =? k) l.

(** Two documents that agree on every field. *)
Definition same_fields (a b : DocumentData) : Prop :=
  ∀ k, omap_get k a = omap_get k b.

(** A host on which two spellings of one instant parse as dates. *)
Definition dated_host : Host :=
  {| string_to_number := string_to_number sample_host;
     date_parse := fun s =>
       if String.eqb s "2024-01-01" || String.eqb s "2024-01-01T00:00:00.000Z"
       then Int 1704067200000
       else NaN;
     date_to_string := date_to_string sample_host;
     function_to_string := function_to_string sample_host;
     math_random := math_random sample_host |}.

(** [m'] has the store and the batch queue of [m]. *)
Definition same_store (m m' : Mock) : Prop :=
  dbData m' = dbData m ∧ operations m' = operations m.

(** The data fields of a Timestamp for [ms], without its closures: what is
    left of it after a trip through JSON. *)
Definition timestamp_fields (ms : num) : value :=
  VObj [("_seconds", VNum (seconds_of ms));
        ("_nanoseconds", VNum (nanoseconds_of ms))].


(** A document mock as [getDocMock] creates it for a string id. *)
Definition addresses (h : DocMock) (c d : string) : Prop :=
  collectionPath h = c ∧ docId h = VStr d ∧ doc_path h = c +:+ "/" +:+ d.

(** * Properties *)

(** ** Paths *)

Lemma split_nonempty sep s : split sep s ≠ [].
Proof.
  destruct s as [|c r]; simpl; [done|].
  destruct (Ascii.eqb c sep); [done|].
  by destruct (split sep r).
Qed.

Lemma split_no_sep sep s : has_sep sep s = false → split sep s = [s].
Proof.
  induction s as [|c r IH]; simpl; [done|].
  destruct (Ascii.eqb c sep); simpl; [done|].
  intros Hr. by rewrite (IH Hr).
Qed.

Lemma split_app sep s t :
  has_sep sep s = false →
  split sep (s +:+ String sep t) = s :: split sep t.
Proof.
  induction s as [|c r IH]; simpl.
  - intros _. by rewrite Ascii.eqb_refl.
  - destruct (Ascii.eqb c sep); simpl; [done|].
    intros Hr. by rewrite (IH Hr).
Qed.

Lemma split_segments sep s : Forall (fun seg => has_sep sep seg = false) (split sep s).
Proof.
  induction s as [|c r IH]; simpl.
  - by constructor.
  - destruct (Ascii.eqb c sep) eqn:Hc.
    + by constructor.
    + destruct (split sep r) as [|seg segs]; inversion IH; subst.
      * constructor; [|done]. simpl. by rewrite Hc.
      * constructor; [|done]. simpl. by rewrite Hc.
Qed.

Lemma split_two sep c d :
  has_sep sep c = false → has_sep sep d = false →
  split sep (c +:+ String sep d) = [c; d].
Proof.
  intros Hc Hd. by rewrite split_app, (split_no_sep _ _ Hd).
Qed.

(** ** Ordered maps *)

Section OrderedMaps.
Context {A : Type}.
Implicit Types (o : omap A) (k : string) (v : A).

Lemma omap_get_set k' k v o :
  omap_get k' (omap_set k v o)
  = if String.eqb k' k then Some v else omap_get k' o.
Proof.
  induction o as [|[k0 v0] r IH]; simpl.
  - by destruct (String.eqb k' k).
  - destruct (String.eqb k k0) eqn:E; simpl.
    + apply String.eqb_eq in E as ->.
      by destruct (String.eqb k' k0).
    + rewrite IH. destruct (String.eqb k' k0) eqn:E0; [|done].
      apply String.eqb_eq in E0 as ->.
      by rewrite String.eqb_sym, E.
Qed.

Lemma omap_get_set_eq k v o : omap_get k (omap_set k v o) = Some v.
Proof. by rewrite omap_get_set, String.eqb_refl. Qed.

Lemma omap_get_set_ne k' k v o :
  k' ≠ k → omap_get k' (omap_set k v o) = omap_get k' o.
Proof.
  intros Hne. rewrite omap_get_set.
  destruct (String.eqb k' k) eqn:E; [|done]. by apply String.eqb_eq in E.
Qed.

Lemma omap_get_delete k' k o :
  omap_get k' (omap_delete k o)
  = if String.eqb k' k then None else omap_get k' o.
Proof.
  induction o as [|[k0 v0] r IH]; simpl.
  - by destruct (String.eqb k' k).
  - destruct (String.eqb k k0) eqn:E; simpl.
    + apply String.eqb_eq in E as <-. rewrite IH.
      by destruct (String.eqb k' k).
    + rewrite IH. destruct (String.eqb k' k0) eqn:E0; [|done].
      apply String.eqb_eq in E0 as ->.
      by rewrite String.eqb_sym, E.
Qed.

Lemma omap_get_None k o : omap_get k o = None ↔ k ∉ o.*1.
Proof.
  induction o as [|[k0 v0] r IH]; simpl.
  - split; [intros _; apply not_elem_of_nil|done].
  - rewrite not_elem_of_cons. destruct (String.eqb k k0) eqn:E.
    + apply String.eqb_eq in E. split; [done|]. by intros [? _].
    + apply String.eqb_neq in E. rewrite IH. tauto.
Qed.

Lemma omap_get_Some k v o :
  is_object_map o → omap_get k o = Some v ↔ (k, v) ∈ o.
Proof.
  unfold is_object_map.
  induction o as [|[k0 v0] r IH]; simpl; intros Hnd.
  - split; [done|]. by intros ?%elem_of_nil.
  - apply NoDup_cons in Hnd as [Hk0 Hnd]. rewrite elem_of_cons.
    destruct (String.eqb k k0) eqn:E.
    + apply String.eqb_eq in E as ->. split.
      * intros [= ->]. by left.
      * intros [[= ->]|Hin]; [done|].
        exfalso. apply Hk0. apply list_elem_of_fmap. by exists (k0, v).
    + apply String.eqb_neq in E. rewrite (IH Hnd). split; [by right|].
      intros [[= -> ->]|Hin]; [done|done].
Qed.

(** Lookup does not depend on the enumeration order. *)
Lemma omap_get_perm k o o' :
  is_object_map o → o ≡ₚ o' → omap_get k o = omap_get k o'.
Proof.
  intros Hnd Hp.
  assert (Hnd' : is_object_map o').
  { unfold is_object_map in *. by rewrite <- Hp. }
  destruct (omap_get k o') as [v|] eqn:E.
  - apply omap_get_Some; [done|]. rewrite Hp. by apply omap_get_Some.
  - apply omap_get_None. apply omap_get_None in E. by rewrite Hp.
Qed.

Lemma insert_index_perm {B} (x : N * B) (l : list (N * B)) :
  insert_index x l ≡ₚ x :: l.
Proof.
  induction l as [|y r IH]; simpl; [done|].
  destruct (fst x <? fst y)%N; [done|].
  rewrite IH. apply Permutation_swap.
Qed.

Lemma sort_index_perm {B} (l : list (N * B)) : sort_index l ≡ₚ l.
Proof.
  induction l as [|x r IH]; simpl; [done|].
  unfold sort_index in *. simpl. by rewrite insert_index_perm, IH.
Qed.

Lemma Object_entries_perm o : Object_entries o ≡ₚ o.
Proof.
  unfold Object_entries. rewrite sort_index_perm.
  induction o as [|[k v] r IH]; simpl; [done|].
  destruct (array_index k); simpl.
  - by rewrite IH.
  - by rewrite <- Permutation_middle, IH.
Qed.

Lemma omap_get_entries k o :
  is_object_map o → omap_get k (Object_entries o) = omap_get k o.
Proof.
  intros Hnd. symmetry. apply omap_get_perm; [done|].
  by rewrite Object_entries_perm.
Qed.

Lemma fold_set_lookup k (l : list (string * A)) o :
  is_object_map l →
  omap_get k (fold_left (fun t kv => omap_set kv.1 kv.2 t) l o)
  = match omap_get k l with
    | Some v => Some v
    | None => omap_get k o
    end.
Proof.
  unfold is_object_map. revert o.
  induction l as [|[k0 v0] r IH]; simpl; intros o Hnd; [done|].
  apply NoDup_cons in Hnd as [Hk0 Hnd].
  rewrite (IH _ Hnd), omap_get_set.
  destruct (String.eqb k k0) eqn:E; [|done].
  apply String.eqb_eq in E as ->.
  apply omap_get_None in Hk0. by rewrite Hk0.
Qed.

(** [{ ...a, ...b }]: the keys of [b] win, the others come from [a]. *)
Lemma spread_lookup k (a b : omap A) :
  is_object_map b →
  omap_get k (spread a b)
  = match omap_get k b with
    | Some v => Some v
    | None => omap_get k a
    end.
Proof.
  intros Hb. unfold spread. rewrite fold_set_lookup.
  - by rewrite omap_get_entries.
  - unfold is_object_map in *. by rewrite Object_entries_perm.
Qed.
End OrderedMaps.

(** ** Memoized document mocks *)

Section Memo.
Variable host : Host.

Lemma getDocMock_dbData c id m :
  dbData (getDocMock host c id m).2 = dbData m.
Proof. unfold getDocMock. by destruct (docMocks m !! _). Qed.

Lemma getDocMock_operations c id m :
  operations (getDocMock host c id m).2 = operations m.
Proof. unfold getDocMock. by destruct (docMocks m !! _). Qed.

Lemma getDocMock_lookup c id m :
  docMocks (getDocMock host c id m).2 !! (c +:+ "/" +:+ to_string host id)
  = Some (getDocMock host c id m).1.
Proof.
  unfold getDocMock.
  destruct (docMocks m !! _) eqn:E; simpl; [done|].
  by rewrite lookup_insert_eq.
Qed.

(** A memoized mock is never replaced. *)
Lemma getDocMock_keeps c id m p h :
  docMocks m !! p = Some h →
  docMocks (getDocMock host c id m).2 !! p = Some h.
Proof.
  intros Hp. unfold getDocMock. cbv zeta.
  destruct (docMocks m !! (c +:+ "/" +:+ to_string host id)) eqn:E; simpl; [done|].
  rewrite lookup_insert_ne; [done|]. intros Heq. rewrite <- Heq in Hp. congruence.
Qed.

Lemma getDocMock_hit c id m h :
  docMocks m !! (c +:+ "/" +:+ to_string host id) = Some h →
  getDocMock host c id m = (h, m).
Proof. intros Hp. unfold getDocMock. cbv zeta. by rewrite Hp. Qed.

Lemma getDocMock_again c id m :
  getDocMock host c id (getDocMock host c id m).2
  = ((getDocMock host c id m).1, (getDocMock host c id m).2).
Proof. apply getDocMock_hit, getDocMock_lookup. Qed.
End Memo.

(** ** The top-level [doc(path)] *)

Section TopLevelDoc.
Variable host : Host.

Lemma doc_two_segments path c d rest m :
  split "/" path = c :: d :: rest → c ≠ "" → d ≠ "" →
  doc host path m = Returned (getDocMock host c (VStr d) m).
Proof.
  intros Hs Hc Hd. unfold doc. rewrite Hs. simpl.
  destruct c; [done|]. by destruct d.
Qed.

(** C9. [doc(path)] throws the invalid-path error, before anything else
    happens, when the first or the second segment of [path.split('/')] is
    missing or empty; for a path [c/d] of two non-empty segments it returns
    the document mock of [(c, d)] and leaves the store alone. *)
Theorem C9_doc_invalid_or_handle (path : string) (m : Mock) :
  ((split "/" path !! 0%nat = None ∨ split "/" path !! 0%nat = Some "" ∨
    split "/" path !! 1%nat = None ∨ split "/" path !! 1%nat = Some "") →
   doc host path m = Thrown ("Invalid document path provided to mock: " +:+ path))
  ∧
  (∀ c d, path = c +:+ "/" +:+ d →
          c ≠ "" → d ≠ "" → has_sep "/" c = false → has_sep "/" d = false →
          doc host path m = Returned (getDocMock host c (VStr d) m)
          ∧ dbData (getDocMock host c (VStr d) m).2 = dbData m).
Proof.
  split.
  - intros H. unfold doc, segment.
    destruct (split "/" path) as [|c [|d rest]] eqn:Hs; simpl in *.
    + done.
    + by destruct c.
    + destruct H as [H|[H|[H|H]]]; try done.
      * injection H as ->. done.
      * injection H as ->. by destruct c.
  - intros c d -> Hc Hd Hsc Hsd. split; [|apply getDocMock_dbData].
    apply (doc_two_segments _ c d []); [|done..].
    by apply split_two.
Qed.

(** C10. A path of three or more non-empty segments is accepted: [doc]
    ignores what follows the second segment and returns the very mock that
    [doc] of the first two segments returns, whichever is asked first; the
    mock is the memoized one of the first two segments, created for the
    address (first, second) if there was none. *)
Theorem C10_doc_ignores_extra_segments
  (path c d : string) (rest : list string) (m : Mock) :
  split "/" path = c :: d :: rest →
  rest ≠ [] → Forall (fun seg => seg ≠ "") (c :: d :: rest) →
  ∃ h m',
    doc host path m = Returned (h, m')
    ∧ doc host (c +:+ "/" +:+ d) m = Returned (h, m')
    ∧ doc host (c +:+ "/" +:+ d) m' = Returned (h, m')
    ∧ doc host path m' = Returned (h, m')
    ∧ docMocks m' !! (c +:+ "/" +:+ d) = Some h
    ∧ (docMocks m !! (c +:+ "/" +:+ d) = None →
       h = {| mock_ref := allocated m; collectionPath := c; docId := VStr d;
              doc_path := c +:+ "/" +:+ d |})
    ∧ dbData m' = dbData m.
Proof.
  intros Hs _ Hne.
  inversion Hne as [|? ? Hc Hne']; subst. inversion Hne' as [|? ? Hd _]; subst.
  pose proof (split_segments "/" path) as Hseg. rewrite Hs in Hseg.
  inversion Hseg as [|? ? Hsc Hseg']; subst.
  inversion Hseg' as [|? ? Hsd _]; subst.
  assert (Hshort : ∀ m0, doc host (c +:+ "/" +:+ d) m0
                         = Returned (getDocMock host c (VStr d) m0)).
  { intros m0. apply (doc_two_segments _ c d []); [|done..]. by apply split_two. }
  assert (Hlong : ∀ m0, doc host path m0
                        = Returned (getDocMock host c (VStr d) m0)).
  { intros m0. by apply (doc_two_segments _ c d rest). }
  exists (getDocMock host c (VStr d) m).1, (getDocMock host c (VStr d) m).2.
  rewrite Hshort, Hlong, Hshort, Hlong, getDocMock_again, getDocMock_dbData.
  pose proof (getDocMock_lookup host c (VStr d) m) as Hk.
  repeat split; try done.
  - by destruct (getDocMock host c (VStr d) m).
  - by destruct (getDocMock host c (VStr d) m).
  - intros Hnone. unfold getDocMock. cbv zeta.
    change (to_string host (VStr d)) with d. by rewrite Hnone.
Qed.
End TopLevelDoc.

(** ** The store *)

Lemma with_dbData_dbData db m : dbData (with_dbData db m) = db.
Proof. done. Qed.

Lemma ensure_collection_present c db :
  is_Some (omap_get c (ensure_collection c db)).
Proof.
  unfold ensure_collection. destruct (omap_get c db) eqn:E.
  - by rewrite E.
  - by rewrite omap_get_set_eq.
Qed.

Lemma ensure_collection_id c db :
  is_Some (omap_get c db) → ensure_collection c db = db.
Proof. intros [coll E]. unfold ensure_collection. by rewrite E. Qed.

Lemma assign_doc_present c d fields db :
  is_Some (omap_get c db) → is_Some (omap_get c (assign_doc c d fields db)).
Proof.
  intros [coll E]. unfold assign_doc. rewrite E. by rewrite omap_get_set_eq.
Qed.

Lemma read_doc_assign c d fields db :
  is_Some (omap_get c db) → read_doc (assign_doc c d fields db) c d = Some fields.
Proof.
  intros [coll E]. unfold read_doc, assign_doc. rewrite E.
  by rewrite !omap_get_set_eq.
Qed.

(** ** Document mocks: [set] *)

Section DocumentSet.
Variable host : Host.

Lemma doc_set_plain h fields options m :
  merge_requested options = false →
  read_doc (dbData (doc_set host h fields options m))
    (collectionPath h) (doc_key host h) = Some fields
  ∧ is_Some (omap_get (collectionPath h) (dbData (doc_set host h fields options m))).
Proof.
  intros Hm. unfold doc_set. rewrite Hm. simpl.
  pose proof (ensure_collection_present (collectionPath h) (dbData m)).
  split; [by apply read_doc_assign | by apply assign_doc_present].
Qed.

(** C5. After [set(A)], a [set(B, {merge: true})] leaves the shallow union
    of [A] and [B] in the store, the keys of [B] winning; a [set(B)] that
    does not ask for a merge leaves exactly [B]. *)
Theorem C5_merge_law (h : DocMock) (A B : DocumentData) (m : Mock) :
  is_object_map A → is_object_map B →
  let stored m' := read_doc (dbData m') (collectionPath h) (doc_key host h) in
  let m1 := doc_set host h A None m in
  (∃ fields,
      stored (doc_set host h B (Some {| merge := Some true |}) m1) = Some fields
      ∧ ∀ k, omap_get k fields
             = match omap_get k B with
               | Some v => Some v
               | None => omap_get k A
               end)
  ∧ stored (doc_set host h B None m1) = Some B
  ∧ (∀ options, merge_requested options = false →
                stored (doc_set host h B options m1) = Some B).
Proof.
  intros HA HB stored m1.
  destruct (doc_set_plain h A None m eq_refl) as [Hread Hcoll].
  fold m1 in Hread, Hcoll. clearbody m1.
  split; [|split].
  - exists (spread (spread [] A) B). split.
    + unfold stored, doc_set. cbn [merge_requested merge].
      rewrite with_dbData_dbData, (ensure_collection_id _ _ Hcoll), Hread.
      by apply read_doc_assign.
    + intros k. rewrite !spread_lookup by done. simpl.
      destruct (omap_get k B); [done|]. by destruct (omap_get k A).
  - apply (doc_set_plain h B None m1 eq_refl).
  - intros options Ho. by apply doc_set_plain.
Qed.
End DocumentSet.

(** ** Document snapshots *)

Section DocumentSnapshots.
Variable host : Host.

(** What [get()] hands out: [exists] is decided at the read, [data()]
    looks the document up again each time it is called. *)
Lemma doc_get_snapshot h m m' :
  exists_ (doc_get host h m).1
  = bool_decide (is_Some (read_doc (dbData m) (collectionPath h) (doc_key host h)))
  ∧ call_data (data (doc_get host h m).1) m'
    = read_doc (dbData m') (collectionPath h) (doc_key host h).
Proof.
  unfold doc_get. destruct (getDocMock host _ _ m) as [self m1]. simpl.
  split; [|done].
  by destruct (read_doc (dbData m) (collectionPath h) (doc_key host h)).
Qed.

(** C7. The snapshot of [users/user1], read while the document holds
    [{name: 'Alice'}], answers [{name: 'Bob'}] from [data()] after a
    later [set], and nothing after a later [delete], while its [exists]
    stays [true]: [data()] is not a point-in-time copy. *)
Theorem C7_snapshot_data_follows_the_store :
  let m0 := fresh_mock [("users", [("user1", [("name", VStr "Alice")])])] in
  let '(cm, m1) := collection "users" m0 in
  let '(h, m2) := coll_doc host cm (Some "user1") m1 in
  let '(s, m3) := doc_get host h m2 in
  let m4 := doc_set host h [("name", VStr "Bob")] None m3 in
  let m5 := doc_delete host h m4 in
  call_data (data s) m3 = Some [("name", VStr "Alice")]
  ∧ call_data (data s) m4 = Some [("name", VStr "Bob")]
  ∧ call_data (data s) m5 = None
  ∧ exists_ s = true.
Proof. vm_compute. done. Qed.
End DocumentSnapshots.

(** ** The batch *)

Section Batch.
Variable host : Host.


(** C6. A batched delete of the subcollection document
    [users/user1/posts/post1] resolves the address from the first two
    segments of the mock's path: the commit removes [users/user1] and
    leaves [post1] where it was, whereas [delete()] on the same mock
    removes [post1]. *)
Theorem C6_batch_delete_misses_subcollection_document :
  let user := [("name", VStr "Alice")] in
  let post := [("title", VStr "User1 Post 1")] in
  let m0 := fresh_mock [("users", [("user1", user)]);
                        ("users/user1/posts", [("post1", post)])] in
  let '(users, m1) := collection "users" m0 in
  let '(user1, m2) := coll_doc host users (Some "user1") m1 in
  let '(posts, m3) := doc_collection user1 "posts" m2 in
  let '(post1, m4) := coll_doc host posts (Some "post1") m3 in
  collectionPath post1 = "users/user1/posts"
  ∧ docId post1 = VStr "post1"
  ∧ dbData (commit (batch_delete post1 m4))
    = [("users", []); ("users/user1/posts", [("post1", post)])]
  ∧ dbData (doc_delete host post1 m4)
    = [("users", [("user1", user)]); ("users/user1/posts", [])].
Proof. vm_compute. done. Qed.
End Batch.

(** ** Reference stability *)

Lemma later_refl m : later m m.
Proof. by split. Qed.

Lemma later_trans m1 m2 m3 : later m1 m2 → later m2 m3 → later m1 m3.
Proof. intros [? ?] [? ?]. split; by etrans. Qed.

Lemma later_same_memo m m' :
  collectionMocks m' = collectionMocks m → docMocks m' = docMocks m → later m m'.
Proof. intros Hc Hd. unfold later. by rewrite Hc, Hd. Qed.


Lemma getCollectionMock_hit c m cm :
  collectionMocks m !! c = Some cm → getCollectionMock c m = (cm, m).
Proof. intros E. unfold getCollectionMock. by rewrite E. Qed.

Lemma later_getCollectionMock c m : later m (getCollectionMock c m).2.
Proof.
  unfold getCollectionMock.
  destruct (collectionMocks m !! c) eqn:E; simpl; [apply later_refl|].
  split; simpl; [by apply insert_subseteq|done].
Qed.

Section Stability.
Variable host : Host.

Lemma later_getDocMock c id m : later m (getDocMock host c id m).2.
Proof.
  unfold getDocMock. cbv zeta.
  destruct (docMocks m !! _) eqn:E; simpl; [apply later_refl|].
  split; simpl; [done|by apply insert_subseteq].
Qed.


Lemma later_doc_set h fields options m : later m (doc_set host h fields options m).
Proof. by apply later_same_memo. Qed.

Lemma later_doc_update h fields m : later m (doc_update host h fields m).
Proof.
  unfold doc_update. destruct (read_doc _ _ _); [|apply later_refl].
  by apply later_same_memo.
Qed.

Lemma later_doc_delete h m : later m (doc_delete host h m).
Proof.
  unfold doc_delete. destruct (read_doc _ _ _); [|apply later_refl].
  by apply later_same_memo.
Qed.

Lemma later_commit m : later m (commit m).
Proof. by apply later_same_memo. Qed.

Lemma later_doc_get h m : later m (doc_get host h m).2.
Proof.
  unfold doc_get.
  pose proof (later_getDocMock (collectionPath h) (docId h) m) as H.
  by destruct (getDocMock host _ _ m).
Qed.

(** The mocks a query attaches are the memoized ones, and stay memoized. *)
Lemma snapshots_memo c l m :
  later m (snapshots host c l m).2
  ∧ ∀ e, e ∈ (snapshots host c l m).1 →
         docMocks (snapshots host c l m).2 !! (c +:+ "/" +:+ to_string host (snap_id e))
         = Some (ref e).
Proof.
  revert m. induction l as [|d r IH]; intros m; cbn [snapshots].
  - split; [apply later_refl|]. by intros e ?%elem_of_nil.
  - pose proof (later_getDocMock c (prop (VObj d) "id") m) as Hl.
    pose proof (getDocMock_lookup host c (prop (VObj d) "id") m) as Hk.
    destruct (getDocMock host c (prop (VObj d) "id") m) as [h m1].
    destruct (IH m1) as [Hl1 Hin1].
    destruct (snapshots host c r m1) as [snaps m2]. cbn [fst snd] in *.
    split; [exact (later_trans _ _ _ Hl Hl1)|].
    intros e [->|He]%elem_of_cons.
    + destruct Hl1 as [_ Hd]. exact (lookup_weaken _ _ _ _ Hk Hd).
    + by apply Hin1.
Qed.


Lemma query_get_memo q m e :
  e ∈ docs (query_get host q m).1 →
  docMocks (query_get host q m).2
    !! (query_path q +:+ "/" +:+ to_string host (snap_id e)) = Some (ref e).
Proof.
  unfold query_get.
  pose proof (snapshots_memo (query_path q) (selected host q (dbData m)) m) as [_ H].
  destruct (snapshots host _ _ m) as [ds m']. simpl in *. apply H.
Qed.

Lemma coll_doc_named cm id m :
  id ≠ "" → coll_doc host cm (Some id) m = getDocMock host (coll_path cm) (VStr id) m.
Proof. by destruct id. Qed.

End Stability.


(** ** Filters *)

Section Filters.
Variable host : Host.

Lemma apply_filters_cons f fs l :
  apply_filters host (f :: fs) l
  = apply_filters host fs (List.filter (matches host f) l).
Proof. done. Qed.

Lemma apply_filters_nil fs : apply_filters host fs [] = [].
Proof. induction fs as [|f fs IH]; [done|]. by rewrite apply_filters_cons. Qed.

Lemma elem_of_filter (P : DocumentData → bool) l d :
  d ∈ List.filter P l ↔ d ∈ l ∧ P d = true.
Proof. rewrite !list_elem_of_In. apply filter_In. Qed.

(** A document survives the chain exactly when every filter keeps it. *)
Lemma elem_of_apply_filters fs l d :
  d ∈ apply_filters host fs l ↔ d ∈ l ∧ ∀ f, f ∈ fs → matches host f d = true.
Proof.
  revert l. induction fs as [|f fs IH]; intros l.
  - simpl. split; [|by intros [? _]].
    intros Hd. split; [done|]. by intros f ?%elem_of_nil.
  - rewrite apply_filters_cons, IH, elem_of_filter. split.
    + intros [[Hd Hf] Hfs]. split; [done|].
      intros f' [->|Hin]%elem_of_cons; [done|by apply Hfs].
    + intros [Hd Hall]. split; [split; [done|]|].
      * apply Hall, list_elem_of_here.
      * intros f' Hin. by apply Hall, list_elem_of_further.
Qed.

Lemma matches_unrecognized f d :
  op f ∉ recognized_operators → matches host f d = false.
Proof.
  intros Hop.
  assert (E : ∀ s, s ∈ recognized_operators → String.eqb (op f) s = false).
  { intros s Hs. apply String.eqb_neq. by intros <-. }
  unfold matches. cbv zeta.
  repeat match goal with
    | |- context [String.eqb (op f) ?s] =>
        rewrite (E s)
          by (unfold recognized_operators;
              repeat first [apply list_elem_of_here | apply list_elem_of_further])
    end.
  by destruct (toDate host (docValue_of f d)), (toDate host (filter_value f)).
Qed.

(** C4. A chain that contains a filter whose operator is not one of the
    recognized ones evaluates to the empty snapshot, whatever the store,
    the field, the comparison value and the rest of the chain. *)
Theorem C4_unrecognized_operator_matches_nothing
  (q : QueryChain) (f : Filter) (m : Mock) :
  f ∈ filters q → op f ∉ recognized_operators →
  docs (query_get host q m).1 = []
  ∧ size (query_get host q m).1 = 0%nat
  ∧ empty (query_get host q m).1 = true
  ∧ dbData (query_get host q m).2 = dbData m.
Proof.
  intros Hf Hop.
  assert (Hsel : selected host q (dbData m) = []).
  { unfold selected.
    set (allDocs := map (doc_of_entry) _).
    assert (Hnone : apply_filters host (filters q) allDocs = []).
    { destruct (apply_filters host (filters q) allDocs) as [|d r] eqn:E; [done|].
      assert (Hd : d ∈ apply_filters host (filters q) allDocs)
        by (rewrite E; apply list_elem_of_here).
      apply elem_of_apply_filters in Hd as [_ Hall].
      specialize (Hall f Hf). by rewrite matches_unrecognized in Hall. }
    rewrite Hnone.
    assert (Hslice : ∀ n, slice0 (A:=DocumentData) n [] = []).
    { intros [|z]; [done|]. unfold slice0. destruct (z <? 0); by rewrite take_nil. }
    destruct (orderBy q), (limit q); simpl; by rewrite ?Hslice. }
  unfold query_get. rewrite Hsel. by simpl.
Qed.

(** C3. Where both sides of [!=] coerce to dates the document is dropped,
    whether or not the two instants differ: the date comparison has no
    case for [!=]. *)
Theorem C3_ne_between_dates_keeps_nothing
  (f : Filter) (d : DocumentData) (a b : num) :
  op f = "!=" →
  toDate host (docValue_of f d) = VDate a →
  toDate host (filter_value f) = VDate b →
  matches host f d = false.
Proof.
  intros Hop Ha Hb. unfold matches. cbv zeta. by rewrite Ha, Hb, Hop.
Qed.
End Filters.

(** ** Ordering and limiting *)

Section OrderLimit.
Variable host : Host.

Lemma snapshots_entries c l m :
  map (λ e, (snap_id e, data e)) (snapshots host c l m).1 = map entry_of l
  ∧ Forall (λ e, exists_ e = true) (snapshots host c l m).1.
Proof.
  revert m. induction l as [|d r IH]; intros m; cbn [snapshots]; [done|].
  destruct (getDocMock host c (prop (VObj d) "id") m) as [h m1].
  destruct (IH m1) as [IH1 IH2].
  destruct (snapshots host c r m1) as [snaps m2]. cbn [fst snd] in *.
  split; [by rewrite map_cons, IH1 | by constructor].
Qed.

Lemma snapshots_dbData c l m : dbData (snapshots host c l m).2 = dbData m.
Proof.
  revert m. induction l as [|d r IH]; intros m; cbn [snapshots]; [done|].
  pose proof (getDocMock_dbData host c (prop (VObj d) "id") m) as H1.
  destruct (getDocMock host c (prop (VObj d) "id") m) as [h m1].
  specialize (IH m1).
  destruct (snapshots host c r m1) as [snaps m2]. cbn [fst snd] in *.
  congruence.
Qed.

(** Building the entries of a prefix gives the prefix of the entries, with
    the same mocks attached. *)
Lemma snapshots_take c k l m :
  (snapshots host c (take k l) m).1 = take k (snapshots host c l m).1.
Proof.
  revert k m. induction l as [|d r IH]; intros k m.
  - by destruct k.
  - destruct k as [|k]; [done|]. cbn [take snapshots].
    destruct (getDocMock host c (prop (VObj d) "id") m) as [h m1].
    specialize (IH k m1).
    destruct (snapshots host c (take k r) m1) as [snaps1 m2].
    destruct (snapshots host c r m1) as [snaps m3]. cbn [fst snd take] in *.
    by rewrite IH.
Qed.

Lemma snapshots_length c l m : length (snapshots host c l m).1 = length l.
Proof.
  pose proof (snapshots_entries c l m) as [H _].
  apply (f_equal length) in H. by rewrite !length_map in H.
Qed.

Lemma snapshots_slice0 c n l m :
  (snapshots host c (slice0 n l) m).1 = slice0 n (snapshots host c l m).1.
Proof.
  destruct n as [|z]; [done|]. unfold slice0.
  rewrite snapshots_length. destruct (z <? 0); apply snapshots_take.
Qed.

Lemma insert_sorted_perm {A} (cmp : A → A → Z) x l :
  insert_sorted cmp x l ≡ₚ x :: l.
Proof.
  induction l as [|y r IH]; simpl; [done|].
  destruct (0 <? cmp x y); [|done].
  rewrite IH. apply Permutation_swap.
Qed.

(** Sorting only rearranges. *)
Lemma sort_perm {A} (cmp : A → A → Z) l : sort cmp l ≡ₚ l.
Proof.
  induction l as [|x r IH]; [done|].
  unfold sort in *. simpl. by rewrite insert_sorted_perm, IH.
Qed.

Lemma selected_limit q n db :
  selected host (limit_ q n) db = slice0 n (selected host (unlimited q) db).
Proof. done. Qed.

Lemma selected_unlimited_perm q db :
  selected host (unlimited q) db
  ≡ₚ apply_filters host (filters q)
       (map (doc_of_entry)
          (Object_entries (default [] (omap_get (query_path q) db)))).
Proof.
  unfold selected, unlimited. simpl.
  destruct (omap_get (query_path q) db); simpl;
    destruct (orderBy q); by rewrite ?sort_perm.
Qed.

Lemma insert_sorted_sorted {A} (cmp : A → A → Z) (R : A → A → Prop)
  (P : A → Prop) x l :
  (∀ a b, P a → P b → if 0 <? cmp a b then R b a else R a b) →
  (∀ a b c, R a b → R b c → R a c) →
  P x → Forall P l → StronglySorted R l →
  StronglySorted R (insert_sorted cmp x l).
Proof.
  intros Hcmp Htrans Hx. induction l as [|y r IH]; intros HP Hs; simpl.
  - by repeat constructor.
  - apply Forall_cons in HP as [Hy HP]. apply StronglySorted_inv in Hs as [Hs Hyr].
    pose proof (Hcmp x y Hx Hy) as Hxy.
    destruct (0 <? cmp x y).
    + constructor; [by apply IH|].
      rewrite insert_sorted_perm. by constructor.
    + constructor; [by constructor|].
      constructor; [done|].
      eapply Forall_impl; [exact Hyr|]. intros z Hz. by eapply Htrans.
Qed.

Lemma sort_sorted {A} (cmp : A → A → Z) (R : A → A → Prop) (P : A → Prop) l :
  (∀ a b, P a → P b → if 0 <? cmp a b then R b a else R a b) →
  (∀ a b c, R a b → R b c → R a c) →
  Forall P l → StronglySorted R (sort cmp l).
Proof.
  intros Hcmp Htrans. induction l as [|x r IH]; intros HP.
  - constructor.
  - apply Forall_cons in HP as [Hx HP]. unfold sort in *. simpl.
    apply (insert_sorted_sorted cmp R P); try done; [|by apply IH].
    change (Forall P (sort cmp r)). by rewrite sort_perm.
Qed.

(** On a field that holds integers the ordering directive sorts: ascending
    unless the direction is ['desc']. *)
Lemma orderBy_sorts_integer_field o l :
  Forall (has_integer (order_field o)) l →
  StronglySorted
    (λ a b, if String.eqb (direction o) "desc"
            then order_key (order_field o) b <= order_key (order_field o) a
            else order_key (order_field o) a <= order_key (order_field o) b)
    (sort (compare_docs host o) l).
Proof.
  apply sort_sorted.
  - intros a b [x Ha] [y Hb]. unfold compare_docs, order_key, gt, lt, js_lt.
    rewrite Ha, Hb. simpl.
    destruct (String.eqb (direction o) "desc");
      destruct (Z.ltb_spec x y), (Z.ltb_spec y x); simpl; lia.
  - intros a b c. destruct (String.eqb (direction o) "desc"); lia.
Qed.

(** A sorted arrangement is unique where equal rank means equal element. *)
Lemma sorted_perm_unique {A} (R : A → A → Prop) (l l' : list A) :
  (∀ a b, a ∈ l → b ∈ l → R a b → R b a → a = b) →
  StronglySorted R l → StronglySorted R l' → l ≡ₚ l' → l = l'.
Proof.
  revert l'. induction l as [|x r IH]; intros l' Hanti Hs Hs' Hp.
  - by apply Permutation_nil in Hp.
  - destruct l' as [|y r'].
    { symmetry in Hp. by apply Permutation_nil in Hp. }
    apply StronglySorted_inv in Hs as [Hs Hx].
    apply StronglySorted_inv in Hs' as [Hs' Hy].
    assert (Hyl : y ∈ x :: r) by (rewrite Hp; apply list_elem_of_here).
    assert (Hxl : x ∈ y :: r') by (rewrite <- Hp; apply list_elem_of_here).
    assert (Hxy : x = y).
    { apply elem_of_cons in Hyl as Hyl'. destruct Hyl' as [->|Hyr]; [done|].
      apply elem_of_cons in Hxl as [->|Hxr]; [done|].
      apply Hanti; [apply list_elem_of_here|done| |].
      - by eapply Forall_forall in Hx.
      - by eapply Forall_forall in Hy. }
    subst y. f_equal. apply IH; [|done|done|by eapply Permutation_cons_inv].
    intros a b Ha Hb. apply Hanti; by apply list_elem_of_further.
Qed.

Lemma doc_of_entry_field (id fld : string) (fields : DocumentData) v :
  is_object_map fields → omap_get fld fields = Some v →
  prop (VObj (doc_of_entry (id, fields))) fld = v.
Proof.
  intros Hf Hv. unfold prop, doc_of_entry. simpl.
  by rewrite spread_lookup, Hv.
Qed.

(** C1. Over three documents A, B, C whose [order] is 3, 1, 2, whatever
    their ids, their other fields and the order the collection enumerates
    them in, the chain [orderBy('order','asc').limit(2)] returns B then C;
    and for every chain and every limit, the limited result is the slice of
    what the same chain returns without the limit, which is the filtered set
    in sorted order: the limit is applied after the ordering. *)
Theorem C1_limit_after_order
  (cm : CollectionMock) (q : QueryChain) (n : num) (m : Mock) :
  (∀ (coll : CollectionData) (ia ib ic : string) (A B C : DocumentData),
      is_object_map A → is_object_map B → is_object_map C →
      omap_get "order" A = Some (VNum (Int 3)) →
      omap_get "order" B = Some (VNum (Int 1)) →
      omap_get "order" C = Some (VNum (Int 2)) →
      coll ≡ₚ [(ia, A); (ib, B); (ic, C)] →
      omap_get (coll_path cm) (dbData m) = Some coll →
      map (λ e, (snap_id e, data e))
        (docs (query_get host
                 (limit_ (orderBy_ (createQueryChain cm) "order" "asc") (Int 2)) m).1)
      = [entry_of (doc_of_entry (ib, B)); entry_of (doc_of_entry (ic, C))])
  ∧ docs (query_get host (limit_ q n) m).1
    = slice0 n (docs (query_get host (unlimited q) m).1)
  ∧ (∀ f d, limit_ (orderBy_ q f d) n = orderBy_ (limit_ q n) f d)
  ∧ map (λ e, (snap_id e, data e)) (docs (query_get host (unlimited q) m).1)
    = map entry_of
        (match orderBy q with
         | Some o => sort (compare_docs host o)
         | None => λ l, l
         end
           (apply_filters host (filters q)
              (map doc_of_entry
                 (Object_entries (default [] (omap_get (query_path q) (dbData m))))))).
Proof.
  split; [|split; [|split]].
  - intros coll ia ib ic A B C HA HB HC H3 H1 H2 Hperm Hdb.
    set (q0 := limit_ (orderBy_ (createQueryChain cm) "order" "asc") (Int 2)).
    set (o := {| order_field := "order"; direction := "asc" |}).
    set (dA := doc_of_entry (ia, A)). set (dB := doc_of_entry (ib, B)).
    set (dC := doc_of_entry (ic, C)).
    set (D := map doc_of_entry (Object_entries coll)).
    assert (HD : D ≡ₚ [dB; dC; dA]).
    { unfold D. rewrite Object_entries_perm, Hperm. simpl.
      fold dA dB dC. by rewrite (Permutation_cons_append [dB; dC] dA). }
    assert (KA : prop (VObj dA) "order" = VNum (Int 3))
      by by apply doc_of_entry_field.
    assert (KB : prop (VObj dB) "order" = VNum (Int 1))
      by by apply doc_of_entry_field.
    assert (KC : prop (VObj dC) "order" = VNum (Int 2))
      by by apply doc_of_entry_field.
    clearbody dA dB dC.
    assert (Hsort : sort (compare_docs host o) D = [dB; dC; dA]).
    { apply (sorted_perm_unique
               (λ a b, order_key "order" a <= order_key "order" b)).
      - intros a b Ha Hb. rewrite sort_perm, HD in Ha, Hb.
        unfold order_key.
        repeat (apply elem_of_cons in Ha as [->|Ha]);
          repeat (apply elem_of_cons in Hb as [->|Hb]);
          try (by apply elem_of_nil in Ha); try (by apply elem_of_nil in Hb);
          rewrite ?KA, ?KB, ?KC; try done; lia.
      - apply (orderBy_sorts_integer_field o). rewrite HD.
        repeat constructor; eexists; eassumption.
      - unfold order_key. repeat constructor; rewrite ?KA, ?KB, ?KC; lia.
      - by rewrite sort_perm. }
    assert (Hsel : selected host q0 (dbData m) = [dB; dC]).
    { unfold selected. cbn [q0 query_path limit_ orderBy_ createQueryChain
                              filters limit orderBy].
      rewrite Hdb. cbn [apply_filters fold_left]. fold D o. by rewrite Hsort. }
    unfold query_get.
    pose proof (snapshots_entries (query_path q0) (selected host q0 (dbData m)) m)
      as [He _].
    destruct (snapshots host _ _ m) as [ds m']. cbn [fst snd docs] in *.
    by rewrite He, Hsel.
  - unfold query_get.
    pose proof (snapshots_slice0 (query_path q) n (selected host (unlimited q) (dbData m)) m) as Hs.
    rewrite <- selected_limit in Hs.
    change (query_path (limit_ q n)) with (query_path q).
    change (query_path (unlimited q)) with (query_path q).
    destruct (snapshots host (query_path q) (selected host (limit_ q n) (dbData m)) m).
    destruct (snapshots host (query_path q) (selected host (unlimited q) (dbData m)) m).
    done.
  - done.
  - unfold query_get.
    pose proof (snapshots_entries (query_path (unlimited q))
                  (selected host (unlimited q) (dbData m)) m) as [He _].
    destruct (snapshots host _ _ m) as [ds m']. cbn [fst snd docs] in *.
    rewrite He. unfold selected, unlimited. simpl.
    by destruct (omap_get (query_path q) (dbData m)), (orderBy q).
Qed.
End OrderLimit.

(** ** Date-aware comparison *)

Section Dates.
Variable host : Host.

Lemma time_clip_unit t : Z.abs t <= 8640000000000000 → time_clip t 1 = Int t.
Proof.
  intros Ht. unfold time_clip.
  destruct (Z.ltb_spec (8640000000000000 * 1) (Z.abs t)); [lia|].
  by rewrite Z.quot_1_r.
Qed.

(** Every Temporal Value coerces to the date of its instant. *)
Lemma toDate_temporal t v : TemporalValue t v → toDate host v = VDate (Int t).
Proof.
  intros [| Ht |]; [done| |done].
  unfold toDate, Timestamp_fromMillis. simpl. by rewrite time_clip_unit.
Qed.

Lemma toDate_date t : toDate host (VDate t) = VDate t.
Proof. done. Qed.

Lemma matches_le_dates f d a b :
  op f = "<=" →
  toDate host (docValue_of f d) = VDate (Int a) →
  toDate host (filter_value f) = VDate (Int b) →
  matches host f d = (a <=? b).
Proof.
  intros Hop Ha Hb. unfold matches. cbv zeta. rewrite Ha, Hb, Hop. simpl.
  unfold le, js_lt. simpl.
  destruct (Z.ltb_spec b a), (Z.leb_spec a b); simpl; try done; lia.
Qed.

Lemma filter_perm {A} (P : A → bool) (l l' : list A) :
  l ≡ₚ l' → List.filter P l ≡ₚ List.filter P l'.
Proof.
  induction 1 as [|x l l' _ IH|x y l|l l' l'' _ IH1 _ IH2]; simpl.
  - done.
  - destruct (P x); by rewrite IH.
  - destruct (P x), (P y); try done. apply Permutation_swap.
  - by etrans.
Qed.

(** C2. With Temporal Values for yesterday, today and tomorrow in the
    [eventDate] of three documents, whatever their ids, their other fields
    and the order the collection enumerates them in, the filter
    [where('eventDate', '<=', today)] with a native date keeps exactly the
    documents of yesterday and today: both sides are coerced to dates and
    their millisecond instants are compared. *)
Theorem C2_date_aware_comparison
  (cm : CollectionMock) (m : Mock) (y t tm : Z) (vy vt vtm : value)
  (coll : CollectionData) (iy it itm : string) (Y T M : DocumentData) :
  TemporalValue y vy → TemporalValue t vt → TemporalValue tm vtm →
  y < t → t < tm →
  is_object_map Y → is_object_map T → is_object_map M →
  omap_get "eventDate" Y = Some vy →
  omap_get "eventDate" T = Some vt →
  omap_get "eventDate" M = Some vtm →
  coll ≡ₚ [(iy, Y); (it, T); (itm, M)] →
  omap_get (coll_path cm) (dbData m) = Some coll →
  map (λ e, (snap_id e, data e))
    (docs (query_get host
             (where_ (createQueryChain cm) "eventDate" "<=" (VDate (Int t))) m).1)
  ≡ₚ [entry_of (doc_of_entry (iy, Y)); entry_of (doc_of_entry (it, T))]
  ∧ size (query_get host
            (where_ (createQueryChain cm) "eventDate" "<=" (VDate (Int t))) m).1
    = 2%nat
  ∧ ∀ f d a b,
      op f = "<=" →
      toDate host (docValue_of f d) = VDate (Int a) →
      toDate host (filter_value f) = VDate (Int b) →
      matches host f d = (a <=? b).
Proof.
  intros Hy Ht Htm Hlt1 Hlt2 HY HT HM EY ET EM Hperm Hdb.
  set (q := where_ (createQueryChain cm) "eventDate" "<=" (VDate (Int t))).
  set (f := {| field := "eventDate"; op := "<="; filter_value := VDate (Int t) |}).
  assert (Hm : ∀ id (D : DocumentData) v a,
               is_object_map D → omap_get "eventDate" D = Some v →
               TemporalValue a v →
               matches host f (doc_of_entry (id, D)) = (a <=? t)).
  { intros id D v a HD ED Hv. apply matches_le_dates; [done| |done].
    change (docValue_of f (doc_of_entry (id, D)))
      with (prop (VObj (doc_of_entry (id, D))) "eventDate").
    rewrite (doc_of_entry_field id "eventDate" D v HD ED).
    by apply toDate_temporal. }
  assert (Hsel : selected host q (dbData m)
                 ≡ₚ [doc_of_entry (iy, Y); doc_of_entry (it, T)]).
  { unfold selected. cbn [q query_path where_ createQueryChain filters limit orderBy].
    rewrite Hdb. cbn [app apply_filters fold_left]. fold f.
    rewrite (filter_perm _ _ [doc_of_entry (iy, Y); doc_of_entry (it, T);
                              doc_of_entry (itm, M)]).
    - cbn [List.filter].
      rewrite (Hm _ _ _ _ HY EY Hy), (Hm _ _ _ _ HT ET Ht), (Hm _ _ _ _ HM EM Htm).
      destruct (Z.leb_spec y t), (Z.leb_spec t t), (Z.leb_spec tm t); try lia.
      done.
    - by rewrite Object_entries_perm, Hperm. }
  assert (He : map (λ e, (snap_id e, data e)) (docs (query_get host q m).1)
               ≡ₚ [entry_of (doc_of_entry (iy, Y)); entry_of (doc_of_entry (it, T))]).
  { unfold query_get.
    pose proof (snapshots_entries host (query_path q) (selected host q (dbData m)) m)
      as [He _].
    destruct (snapshots host _ _ m) as [ds m']. cbn [fst snd docs] in *.
    rewrite He, Hsel. done. }
  split; [done|split; [|apply matches_le_dates]].
  apply Permutation_length in He. rewrite length_map in He.
  unfold query_get in *. destruct (snapshots host _ _ m). done.
Qed.
End Dates.

(** ** The properties at concrete inputs *)

Lemma C1_limit_after_order_witness :
  let cm := {| coll_ref := 0; coll_path := "items" |} in
  let m := fresh_mock [("items", items_ABC)] in
  let A := [("name", VStr "A"); ("order", VNum (Int 3))] in
  let B := [("name", VStr "B"); ("order", VNum (Int 1))] in
  let C := [("name", VStr "C"); ("order", VNum (Int 2))] in
  (is_object_map A ∧ is_object_map B ∧ is_object_map C
   ∧ omap_get "order" A = Some (VNum (Int 3))
   ∧ omap_get "order" B = Some (VNum (Int 1))
   ∧ omap_get "order" C = Some (VNum (Int 2))
   ∧ items_ABC ≡ₚ [("item1", A); ("item2", B); ("item3", C)]
   ∧ omap_get (coll_path cm) (dbData m) = Some items_ABC)
  ∧ map (λ e, (snap_id e, data e))
      (docs (query_get sample_host
               (limit_ (orderBy_ (createQueryChain cm) "order" "asc") (Int 2)) m).1)
    = [(VStr "item2", FixedData B); (VStr "item3", FixedData C)].
Proof.
  intros cm m A B C.
  assert (HA : is_object_map A).
  { apply (bool_decide_unpack _). vm_compute. exact I. }
  assert (HB : is_object_map B).
  { apply (bool_decide_unpack _). vm_compute. exact I. }
  assert (HC : is_object_map C).
  { apply (bool_decide_unpack _). vm_compute. exact I. }
  assert (Hp : items_ABC ≡ₚ [("item1", A); ("item2", B); ("item3", C)])
    by reflexivity.
  split; [by repeat split|].
  exact (proj1 (C1_limit_after_order sample_host cm (createQueryChain cm) (Int 2) m)
           items_ABC "item1" "item2" "item3" A B C HA HB HC
           eq_refl eq_refl eq_refl Hp eq_refl).
Defined.

Lemma C2_date_aware_comparison_witness :
  let cm := {| coll_ref := 0; coll_path := "events" |} in
  let vy := Timestamp_fromDate (Int 0) in
  let vt := Timestamp_fromMillis (Int 86400000) in
  let vtm := clonedTimestamp (Int 172800000) in
  let m := fresh_mock [("events", events vy vt vtm)] in
  (TemporalValue 0 vy ∧ TemporalValue 86400000 vt ∧ TemporalValue 172800000 vtm
   ∧ 0 < 86400000 ∧ 86400000 < 172800000
   ∧ is_object_map [("eventDate", vy)] ∧ is_object_map [("eventDate", vt)]
   ∧ is_object_map [("eventDate", vtm)]
   ∧ events vy vt vtm
     ≡ₚ [("event-yesterday", [("eventDate", vy)]);
         ("event-today", [("eventDate", vt)]);
         ("event-tomorrow", [("eventDate", vtm)])]
   ∧ omap_get (coll_path cm) (dbData m) = Some (events vy vt vtm))
  ∧ map (λ e, (snap_id e, data e))
      (docs (query_get sample_host
               (where_ (createQueryChain cm) "eventDate" "<=" (VDate (Int 86400000))) m).1)
    ≡ₚ [(VStr "event-yesterday", FixedData [("eventDate", vy)]);
        (VStr "event-today", FixedData [("eventDate", vt)])].
Proof.
  intros cm vy vt vtm m.
  assert (H1 : TemporalValue 0 vy) by constructor.
  assert (H2 : TemporalValue 86400000 vt) by (constructor; vm_compute; discriminate).
  assert (H3 : TemporalValue 172800000 vtm) by constructor.
  assert (H4 : 0 < 86400000) by reflexivity.
  assert (H5 : 86400000 < 172800000) by reflexivity.
  assert (HO : ∀ v : value, is_object_map [("eventDate", v)]).
  { intros v. apply NoDup_singleton. }
  assert (Hp : events vy vt vtm
               ≡ₚ [("event-yesterday", [("eventDate", vy)]);
                   ("event-today", [("eventDate", vt)]);
                   ("event-tomorrow", [("eventDate", vtm)])]) by reflexivity.
  assert (H6 : omap_get (coll_path cm) (dbData m) = Some (events vy vt vtm))
    by reflexivity.
  split; [by repeat split|].
  exact (proj1 (C2_date_aware_comparison sample_host cm m 0 86400000 172800000
                  vy vt vtm (events vy vt vtm)
                  "event-yesterday" "event-today" "event-tomorrow"
                  [("eventDate", vy)] [("eventDate", vt)] [("eventDate", vtm)]
                  H1 H2 H3 H4 H5 (HO vy) (HO vt) (HO vtm)
                  eq_refl eq_refl eq_refl Hp H6)).
Defined.

Lemma C3_ne_between_dates_keeps_nothing_witness :
  let f := {| field := "eventDate"; op := "!=";
              filter_value := VDate (Int 86400000) |} in
  let d := [("id", VStr "event-yesterday");
            ("eventDate", Timestamp_fromDate (Int 0))] in
  (op f = "!="
   ∧ toDate sample_host (docValue_of f d) = VDate (Int 0)
   ∧ toDate sample_host (filter_value f) = VDate (Int 86400000))
  ∧ matches sample_host f d = false.
Proof.
  intros f d. split; [by repeat split|].
  apply (C3_ne_between_dates_keeps_nothing sample_host f d (Int 0) (Int 86400000));
    reflexivity.
Defined.

Lemma C4_unrecognized_operator_matches_nothing_witness :
  let cm := {| coll_ref := 0; coll_path := "users" |} in
  let m := fresh_mock [("users", [("user1", [("role", VStr "admin")])])] in
  let q := where_ (createQueryChain cm) "role" "contains" (VStr "admin") in
  let f := {| field := "role"; op := "contains"; filter_value := VStr "admin" |} in
  (f ∈ filters q ∧ op f ∉ recognized_operators)
  ∧ docs (query_get sample_host q m).1 = []
  ∧ size (query_get sample_host q m).1 = 0%nat
  ∧ empty (query_get sample_host q m).1 = true
  ∧ dbData (query_get sample_host q m).2 = dbData m.
Proof.
  intros cm m q f.
  assert (H1 : f ∈ filters q) by apply list_elem_of_here.
  assert (H2 : op f ∉ recognized_operators).
  { apply (bool_decide_unpack _). vm_compute. exact I. }
  split; [by split|].
  exact (C4_unrecognized_operator_matches_nothing sample_host q f m H1 H2).
Defined.

Lemma C5_merge_law_witness :
  let h := {| mock_ref := 0; collectionPath := "items"; docId := VStr "item1";
              doc_path := "items/item1" |} in
  let A := [("name", VStr "Old Name"); ("count", VNum (Int 1))] in
  let B := [("name", VStr "New Merged Name")] in
  let m := fresh_mock [] in
  let stored m' := read_doc (dbData m') "items" "item1" in
  (is_object_map A ∧ is_object_map B)
  ∧ (∃ fields,
        stored (doc_set sample_host h B (Some {| merge := Some true |})
                  (doc_set sample_host h A None m)) = Some fields
        ∧ ∀ k, omap_get k fields
               = match omap_get k B with
                 | Some v => Some v
                 | None => omap_get k A
                 end)
  ∧ stored (doc_set sample_host h B None (doc_set sample_host h A None m)) = Some B.
Proof.
  intros h A B m stored.
  assert (HA : is_object_map A).
  { apply (bool_decide_unpack _). vm_compute. exact I. }
  assert (HB : is_object_map B).
  { apply (bool_decide_unpack _). vm_compute. exact I. }
  split; [by split|].
  destruct (C5_merge_law sample_host h A B m HA HB) as (Hmerge & Hplain & _).
  by split.
Defined.


Lemma C9_doc_invalid_or_handle_witness :
  let m := fresh_mock [] in
  (split "/" "users" !! 1%nat = None
   ∧ doc sample_host "users" m
     = Thrown "Invalid document path provided to mock: users")
  ∧ ("users/" = "users" +:+ "/" +:+ "" ∧ split "/" "users/" !! 1%nat = Some ""
     ∧ doc sample_host "users/" m
       = Thrown "Invalid document path provided to mock: users/")
  ∧ ("users/user1" = "users" +:+ "/" +:+ "user1"
     ∧ doc sample_host "users/user1" m
       = Returned (getDocMock sample_host "users" (VStr "user1") m)).
Proof.
  intros m. split; [|split].
  - split; [reflexivity|].
    apply (proj1 (C9_doc_invalid_or_handle sample_host "users" m)).
    right; right; left. reflexivity.
  - split; [reflexivity|]. split; [reflexivity|].
    apply (proj1 (C9_doc_invalid_or_handle sample_host "users/" m)).
    right; right; right. reflexivity.
  - split; [reflexivity|].
    apply (proj2 (C9_doc_invalid_or_handle sample_host "users/user1" m)
             "users" "user1"); try reflexivity; discriminate.
Defined.

Lemma C10_doc_ignores_extra_segments_witness :
  let m := fresh_mock [] in
  (split "/" "users/user1/posts/post1" = ["users"; "user1"; "posts"; "post1"]
   ∧ ["posts"; "post1"] ≠ []
   ∧ Forall (λ seg, seg ≠ "") ["users"; "user1"; "posts"; "post1"])
  ∧ ∃ h m',
      doc sample_host "users/user1/posts/post1" m = Returned (h, m')
      ∧ doc sample_host "users/user1" m = Returned (h, m')
      ∧ doc sample_host "users/user1" m' = Returned (h, m')
      ∧ doc sample_host "users/user1/posts/post1" m' = Returned (h, m').
Proof.
  intros m.
  assert (H1 : split "/" "users/user1/posts/post1"
               = ["users"; "user1"; "posts"; "post1"]) by reflexivity.
  assert (H2 : ["posts"; "post1"] ≠ []) by discriminate.
  assert (H3 : Forall (λ seg, seg ≠ "") ["users"; "user1"; "posts"; "post1"])
    by (repeat constructor; discriminate).
  split; [by repeat split|].
  destruct (C10_doc_ignores_extra_segments sample_host "users/user1/posts/post1"
              "users" "user1" ["posts"; "post1"] m H1 H2 H3)
    as (h & m' & E1 & E2 & E3 & E4 & _).
  exists h, m'. by repeat split.
Defined.

(** * Further properties of the source *)

(** ** Reading and writing one document *)

Lemma read_doc_ensure c db c' d' :
  read_doc (ensure_collection c db) c' d' = read_doc db c' d'.
Proof.
  unfold ensure_collection, read_doc.
  destruct (omap_get c db) eqn:E; [done|].
  rewrite omap_get_set. destruct (String.eqb c' c) eqn:Ec; [|done].
  apply String.eqb_eq in Ec as ->. by rewrite E.
Qed.

Lemma read_doc_assign_other c d fields db c' d' :
  (c', d') ≠ (c, d) →
  read_doc (assign_doc c d fields db) c' d' = read_doc db c' d'.
Proof.
  intros Hne. unfold assign_doc, read_doc.
  destruct (omap_get c db) as [coll|] eqn:E; [|done].
  rewrite omap_get_set. destruct (String.eqb c' c) eqn:Ec; [|done].
  apply String.eqb_eq in Ec as ->. rewrite E, omap_get_set.
  destruct (String.eqb d' d) eqn:Ed; [|done].
  apply String.eqb_eq in Ed as ->. done.
Qed.


Lemma read_doc_remove_other c d db c' d' :
  (c', d') ≠ (c, d) →
  read_doc (remove_doc c d db) c' d' = read_doc db c' d'.
Proof.
  intros Hne. unfold remove_doc, read_doc.
  destruct (omap_get c db) as [coll|] eqn:E; [|done].
  rewrite omap_get_set. destruct (String.eqb c' c) eqn:Ec; [|done].
  apply String.eqb_eq in Ec as ->. rewrite E, omap_get_delete.
  destruct (String.eqb d' d) eqn:Ed; [|done].
  apply String.eqb_eq in Ed as ->. done.
Qed.


Section DocumentMocks.
Variable host : Host.

(** X1. A document written with [set] is read back by [get] on the same
    mock: when no merge is asked for, or the document did not exist, the
    snapshot exists and [data()] is the object that was written. *)
Theorem set_then_get (h : DocMock) (fields : DocumentData)
  (options : option SetOptions) (m : Mock) :
  merge_requested options = false
  ∨ read_doc (dbData m) (collectionPath h) (doc_key host h) = None →
  let m1 := doc_set host h fields options m in
  exists_ (doc_get host h m1).1 = true
  ∧ call_data (data (doc_get host h m1).1) (doc_get host h m1).2 = Some fields
  ∧ snap_id (doc_get host h m1).1 = docId h.
Proof.
  intros Hcase m1.
  assert (Hread : read_doc (dbData m1) (collectionPath h) (doc_key host h)
                  = Some fields).
  { unfold m1, doc_set. rewrite with_dbData_dbData.
    pose proof (ensure_collection_present (collectionPath h) (dbData m)) as Hc.
    destruct (merge_requested options) eqn:Hm.
    - destruct Hcase as [?|Hnone]; [done|].
      rewrite read_doc_ensure, Hnone. by apply read_doc_assign.
    - by apply read_doc_assign. }
  pose proof (doc_get_snapshot host h m1 (doc_get host h m1).2) as [He Hd].
  rewrite He, Hd. unfold doc_get.
  pose proof (getDocMock_dbData host (collectionPath h) (docId h) m1) as Hdb.
  destruct (getDocMock host _ _ m1) as [self m2]. cbn [fst snd snap_id] in *.
  rewrite Hdb, Hread. split; [|done].
  apply bool_decide_eq_true. by eexists.
Qed.



Lemma doc_set_other (h : DocMock) (fields : DocumentData)
  (options : option SetOptions) (m : Mock) (c d : string) :
  (c, d) ≠ (collectionPath h, doc_key host h) →
  read_doc (dbData (doc_set host h fields options m)) c d = read_doc (dbData m) c d.
Proof.
  intros Hne. unfold doc_set. cbv zeta. rewrite with_dbData_dbData.
  destruct (merge_requested options);
    [destruct (read_doc (ensure_collection _ _) _ _)|];
    by rewrite read_doc_assign_other, read_doc_ensure.
Qed.

(** X4. [set], [update] and [delete] on one mock leave every other document
    of the store as it was. *)
Theorem writes_leave_other_documents (h : DocMock) (fields : DocumentData)
  (options : option SetOptions) (m : Mock) (c d : string) :
  (c, d) ≠ (collectionPath h, doc_key host h) →
  read_doc (dbData (doc_set host h fields options m)) c d = read_doc (dbData m) c d
  ∧ read_doc (dbData (doc_update host h fields m)) c d = read_doc (dbData m) c d
  ∧ read_doc (dbData (doc_delete host h m)) c d = read_doc (dbData m) c d.
Proof.
  intros Hne. split; [|split].
  - by apply doc_set_other.
  - unfold doc_update. cbv zeta. destruct (read_doc (dbData m) _ _); [|done].
    by rewrite with_dbData_dbData, read_doc_assign_other.
  - unfold doc_delete. cbv zeta. destruct (read_doc (dbData m) _ _); [|done].
    by rewrite with_dbData_dbData, read_doc_remove_other.
Qed.

(** X5. The [ref] of a document snapshot is the mock it was read from, and
    reading creates nothing, for a mock that is memoized under its path. *)
Theorem get_ref_is_the_mock (h : DocMock) (m : Mock) :
  docMocks m !! (collectionPath h +:+ "/" +:+ doc_key host h) = Some h →
  ref (doc_get host h m).1 = h ∧ (doc_get host h m).2 = m.
Proof.
  intros Hm. unfold doc_get.
  by rewrite (getDocMock_hit host _ _ _ _ Hm).
Qed.
End DocumentMocks.

(** ** The batch *)


Lemma operation_address (r : DocMock) (c d : string) :
  doc_path r = c +:+ "/" +:+ d →
  has_sep "/" c = false → has_sep "/" d = false →
  split "/" (doc_path r) = [c; d].
Proof.
  intros -> Hc Hd. change (c +:+ "/" +:+ d) with (c +:+ String "/" d).
  by apply split_two.
Qed.

Section BatchWrites.
Variable host : Host.

(** The batch is a queue: enqueueing a write leaves the store alone,
    [commit] applies the queued writes in the order they were enqueued and
    empties the queue, and a second [commit] changes nothing. *)
Lemma batch_is_a_queue (r : DocMock) (fields : DocumentData)
  (options : option SetOptions) (o : Operation) (m : Mock) :
  dbData (batch_set r fields options m) = dbData m
  ∧ dbData (batch_update r fields m) = dbData m
  ∧ dbData (batch_delete r m) = dbData m
  ∧ dbData (commit (with_operations (operations m ++ [o]) m))
    = apply_operation (dbData (commit m)) o
  ∧ operations (commit m) = []
  ∧ commit (commit m) = commit m.
Proof.
  repeat split.
  unfold commit. simpl. by rewrite fold_left_app.
Qed.



(** X7. For a mock of a top-level document and an empty queue, a batched
    [delete] and a batched [set] without merge, once committed, leave the
    store exactly as the mock's own [delete] and [set] do. *)
Theorem batch_matches_direct_write (h : DocMock) (c d : string)
  (fields : DocumentData) (options : option SetOptions) (m : Mock) :
  addresses h c d → has_sep "/" c = false → has_sep "/" d = false →
  operations m = [] → merge_requested options = false →
  dbData (commit (batch_delete h m)) = dbData (doc_delete host h m)
  ∧ dbData (commit (batch_set h fields options m))
    = dbData (doc_set host h fields options m).
Proof.
  intros (Hc & Hid & Hp) Hsc Hsd Hq Hm.
  pose proof (operation_address h c d Hp Hsc Hsd) as Hs.
  assert (Hk : doc_key host h = d) by (unfold doc_key; by rewrite Hid).
  split.
  - unfold commit, batch_delete, doc_delete. simpl. rewrite Hq. simpl.
    unfold apply_operation. cbn [op_path]. rewrite Hs, Hc, Hk. simpl.
    by destruct (read_doc (dbData m) c d).
  - unfold commit, batch_set, doc_set. simpl. rewrite Hq. simpl.
    unfold apply_operation. cbn [op_path]. rewrite Hs, Hc, Hk, Hm. done.
Qed.

End BatchWrites.

(** ** What a query returns *)

Lemma omap_set_object_map {A} k (v : A) (o : omap A) :
  is_object_map o → is_object_map (omap_set k v o).
Proof.
  unfold is_object_map. induction o as [|[k0 v0] r IH]; simpl; intros Hnd.
  - apply NoDup_singleton.
  - apply NoDup_cons in Hnd as [Hk0 Hnd].
    destruct (String.eqb k k0) eqn:E; simpl.
    + by apply NoDup_cons.
    + apply NoDup_cons. split; [|by apply IH].
      apply omap_get_None. rewrite omap_get_set_ne.
      * by apply omap_get_None.
      * intros ->. by rewrite String.eqb_refl in E.
Qed.

Lemma spread_object_map {A} (a b : omap A) :
  is_object_map a → is_object_map (spread a b).
Proof.
  unfold spread. generalize (Object_entries b). intros l. revert a.
  induction l as [|[k v] r IH]; simpl; intros a Ha; [done|].
  by apply IH, omap_set_object_map.
Qed.

Lemma map_eq_Forall2 {A B C} (g : A → C) (h : B → C) (R : A → Prop)
  (P : B → Prop) (Q : A → B → Prop) (l : list A) (l' : list B) :
  map g l = map h l' → Forall R l → Forall P l' →
  (∀ e x, R e → P x → g e = h x → Q e x) → Forall2 Q l l'.
Proof.
  intros Heq HR HP HQ. revert l Heq HR.
  induction HP as [|x r Hx HP IH]; intros [|e l] Heq HR; try done.
  injection Heq as He Hl. apply Forall_cons in HR as [Hr HR].
  constructor; [by apply HQ|by apply IH].
Qed.

Lemma Object_entries_length {A} (o : omap A) : length (Object_entries o) = length o.
Proof. apply Permutation_length, Object_entries_perm. Qed.

Section QueryResults.
Variable host : Host.

(** The entry made from a stored document that has no field named [id]. *)
Lemma entry_of_stored (k : string) (fields : DocumentData) :
  is_object_map fields → omap_get "id" fields = None →
  ∃ rest, entry_of (doc_of_entry (k, fields)) = (VStr k, FixedData rest)
          ∧ same_fields rest fields.
Proof.
  intros Hf Hid. unfold entry_of.
  exists (omap_delete "id" (Object_entries (doc_of_entry (k, fields)))). split.
  - f_equal. unfold prop, doc_of_entry. simpl.
    by rewrite spread_lookup, Hid.
  - intros k'. rewrite omap_get_delete.
    destruct (String.eqb k' "id") eqn:E.
    + apply String.eqb_eq in E as ->. by rewrite Hid.
    + rewrite omap_get_entries.
      * unfold doc_of_entry. simpl. rewrite spread_lookup by done. simpl.
        rewrite E. by destruct (omap_get k' fields).
      * apply spread_object_map. apply NoDup_singleton.
Qed.

(** X9. A query without directives lists the stored documents of its
    collection, one entry each and in enumeration order: the entry of a
    document that has no field named [id] carries the document's key as id,
    [exists = true] and, in [data()], the stored fields. A collection that
    is not in the store gives the empty snapshot. *)
Theorem unfiltered_query_lists_the_collection
  (cm : CollectionMock) (m : Mock) (coll : CollectionData) :
  (omap_get (coll_path cm) (dbData m) = Some coll →
   Forall (λ kf, is_object_map kf.2 ∧ omap_get "id" kf.2 = None) coll →
   Forall2 (λ e kf, snap_id e = VStr kf.1 ∧ exists_ e = true
                    ∧ ∃ rest, data e = FixedData rest ∧ same_fields rest kf.2)
     (docs (query_get host (createQueryChain cm) m).1) (Object_entries coll)
   ∧ size (query_get host (createQueryChain cm) m).1 = length coll)
  ∧ (omap_get (coll_path cm) (dbData m) = None →
     docs (query_get host (createQueryChain cm) m).1 = []
     ∧ empty (query_get host (createQueryChain cm) m).1 = true).
Proof.
  split.
  - intros Hdb Hwf. unfold query_get.
    pose proof (snapshots_entries host (coll_path cm)
                  (selected host (createQueryChain cm) (dbData m)) m) as [He Hex].
    change (query_path (createQueryChain cm)) with (coll_path cm).
    destruct (snapshots host _ _ m) as [ds m']. cbn [fst snd docs size] in *.
    assert (Hsel : selected host (createQueryChain cm) (dbData m)
                   = map doc_of_entry (Object_entries coll)).
    { unfold selected. simpl. by rewrite Hdb. }
    rewrite Hsel, map_map in He. split.
    + assert (Hwf' : Forall (λ kf : string * DocumentData,
                               is_object_map kf.2 ∧ omap_get "id" kf.2 = None)
                       (Object_entries coll)) by by rewrite Object_entries_perm.
      eapply map_eq_Forall2; [exact He|exact Hex|exact Hwf'|].
      intros e [k f] Hx [Hf Hid] Heq. simpl in *.
      destruct (entry_of_stored k f Hf Hid) as (rest & Hr & Hs).
      rewrite Hr in Heq. injection Heq as -> ->.
      split; [done|split; [done|by exists rest]].
    + apply (f_equal length) in He. rewrite !length_map in He.
      by rewrite He, Object_entries_length.
  - intros Hdb. unfold query_get.
    assert (Hsel : selected host (createQueryChain cm) (dbData m) = []).
    { unfold selected. simpl. by rewrite Hdb. }
    by rewrite Hsel.
Qed.

(** The entry made from a stored document that has a field named [id]. *)
Lemma entry_of_own_id (k : string) (fields : DocumentData) (v : value) :
  is_object_map fields → omap_get "id" fields = Some v →
  ∃ rest, entry_of (doc_of_entry (k, fields)) = (v, FixedData rest)
          ∧ omap_get "id" rest = None
          ∧ ∀ k', k' ≠ "id" → omap_get k' rest = omap_get k' fields.
Proof.
  intros Hf Hid. unfold entry_of.
  exists (omap_delete "id" (Object_entries (doc_of_entry (k, fields)))).
  split; [|split].
  - f_equal. unfold prop, doc_of_entry. simpl.
    by rewrite spread_lookup, Hid.
  - by rewrite omap_get_delete, String.eqb_refl.
  - intros k' Hk. rewrite omap_get_delete.
    destruct (String.eqb_spec k' "id") as [->|_]; [done|].
    rewrite omap_get_entries.
    + unfold doc_of_entry. simpl. rewrite spread_lookup by done. simpl.
      destruct (String.eqb_spec k' "id") as [->|_]; [done|].
      by destruct (omap_get k' fields).
    + apply spread_object_map. apply NoDup_singleton.
Qed.

(** X25. A stored document that has a field named [id] is listed under the
    value of that field, not under its key: the entry's [id] is the field's
    value, its [ref] is the mock memoized for that value in the collection,
    and its [data()] is the document without the [id] field. *)
Theorem own_id_field_wins (cm : CollectionMock) (m : Mock) (coll : CollectionData) :
  omap_get (coll_path cm) (dbData m) = Some coll →
  Forall (λ kf, is_object_map kf.2) coll →
  Forall2
    (λ e kf, ∀ v, omap_get "id" kf.2 = Some v →
                  snap_id e = v
                  ∧ docMocks (query_get host (createQueryChain cm) m).2
                      !! (coll_path cm +:+ "/" +:+ to_string host v) = Some (ref e)
                  ∧ ∃ rest, data e = FixedData rest
                            ∧ omap_get "id" rest = None
                            ∧ ∀ k, k ≠ "id" → omap_get k rest = omap_get k kf.2)
    (docs (query_get host (createQueryChain cm) m).1) (Object_entries coll).
Proof.
  intros Hdb Hwf.
  assert (He : map (λ e, (snap_id e, data e))
                 (docs (query_get host (createQueryChain cm) m).1)
               = map (λ kf, entry_of (doc_of_entry kf)) (Object_entries coll)).
  { unfold query_get.
    pose proof (snapshots_entries host (coll_path cm)
                  (selected host (createQueryChain cm) (dbData m)) m) as [He _].
    change (query_path (createQueryChain cm)) with (coll_path cm).
    destruct (snapshots host _ _ m) as [ds m']. cbn [fst snd docs] in *.
    assert (Hsel : selected host (createQueryChain cm) (dbData m)
                   = map doc_of_entry (Object_entries coll)).
    { unfold selected. simpl. by rewrite Hdb. }
    by rewrite Hsel, map_map in He. }
  assert (Hwf' : Forall (λ kf : string * DocumentData, is_object_map kf.2)
                   (Object_entries coll)) by by rewrite Object_entries_perm.
  eapply (map_eq_Forall2 _ _
            (λ e, e ∈ docs (query_get host (createQueryChain cm) m).1));
    [exact He|by apply Forall_forall|exact Hwf'|].
  intros e [k f] Hin Hf Heq v Hid. cbn [fst snd] in *.
  destruct (entry_of_own_id k f v Hf Hid) as (rest & Hr & Hn & Hs).
  assert (Heq' : (snap_id e, data e) = (v, FixedData rest))
    by (rewrite <- Hr; exact Heq).
  injection Heq' as Hi Hd.
  split; [done|split; [|by exists rest]].
  rewrite <- Hi. exact (query_get_memo host (createQueryChain cm) m e Hin).
Qed.

Lemma apply_filters_forallb fs l :
  apply_filters host fs l
  = List.filter (λ d, forallb (λ f, matches host f d) fs) l.
Proof.
  revert l. induction fs as [|f fs IH]; intros l.
  - simpl. induction l as [|d l IHl]; simpl; [done|]. by rewrite <- IHl.
  - rewrite apply_filters_cons, IH. simpl.
    induction l as [|d l IHl]; simpl; [done|].
    destruct (matches host f d); simpl; [|done].
    destruct (forallb _ fs); by rewrite IHl.
Qed.

Lemma query_get_selected q q' m :
  query_path q = query_path q' →
  selected host q (dbData m) = selected host q' (dbData m) →
  query_get host q m = query_get host q' m.
Proof. intros Hp Hs. unfold query_get. by rewrite Hp, Hs. Qed.

(** X10. The filters of a chain act as a conjunction: two [where] calls can
    be swapped, and a [where] repeated twice is the same as once. The query
    answers with the same snapshot (same entries, same mocks attached). *)
Theorem filters_commute (q : QueryChain) (m : Mock)
  (f1 o1 : string) (v1 : value) (f2 o2 : string) (v2 : value) :
  query_get host (where_ (where_ q f1 o1 v1) f2 o2 v2) m
  = query_get host (where_ (where_ q f2 o2 v2) f1 o1 v1) m
  ∧ query_get host (where_ (where_ q f1 o1 v1) f1 o1 v1) m
    = query_get host (where_ q f1 o1 v1) m.
Proof.
  assert (Hext : ∀ (P Q : DocumentData → bool) l,
             (∀ d, P d = Q d) → List.filter P l = List.filter Q l).
  { intros P Q l H. induction l as [|d l IH]; simpl; [done|].
    by rewrite H, IH. }
  split; apply query_get_selected; try done; unfold selected; simpl;
    rewrite !apply_filters_forallb;
    (erewrite Hext; [reflexivity|]); intros d; rewrite !forallb_app; simpl;
    destruct (forallb _ (filters q)), (matches host _ d); simpl; try done;
    by destruct (matches host _ d).
Qed.

Lemma query_size q m :
  size (query_get host q m).1 = length (selected host q (dbData m)).
Proof.
  unfold query_get.
  pose proof (snapshots_length host (query_path q) (selected host q (dbData m)) m).
  by destruct (snapshots host _ _ m).
Qed.

(** X11. [limit(n)] keeps the first [n] entries when [n] is not negative,
    never more than there are; a negative [n] drops that many entries from
    the end instead, and NaN keeps none. *)
Theorem limit_size (q : QueryChain) (n : num) (m : Mock) :
  size (query_get host (limit_ q n) m).1
  = match n with
    | NaN => 0%nat
    | Int z =>
        let all := size (query_get host (unlimited q) m).1 in
        if z <? 0 then (all - Z.to_nat (- z))%nat
        else Nat.min (Z.to_nat z) all
    end.
Proof.
  rewrite !query_size, selected_limit.
  destruct n as [|z]; [done|]. unfold slice0. cbv zeta.
  destruct (Z.ltb_spec z 0); rewrite length_take; lia.
Qed.
End QueryResults.

(** ** Ordering *)

Section Ordering.
Variable host : Host.

Lemma compare_docs_integers o a b x y :
  prop (VObj a) (order_field o) = VNum (Int x) →
  prop (VObj b) (order_field o) = VNum (Int y) →
  (0 <? compare_docs host o a b)
  = if String.eqb (direction o) "desc" then x <? y else y <? x.
Proof.
  intros Ha Hb. unfold compare_docs, gt, lt, js_lt. rewrite Ha, Hb. simpl.
  destruct (String.eqb (direction o) "desc");
    destruct (Z.ltb_spec x y), (Z.ltb_spec y x); simpl; try done; lia.
Qed.

Lemma insert_sorted_with_key o k x l :
  has_integer (order_field o) x → Forall (has_integer (order_field o)) l →
  with_key (order_field o) k (insert_sorted (compare_docs host o) x l)
  = with_key (order_field o) k (x :: l).
Proof.
  intros [kx Hx] Hl. induction Hl as [|y r [ky Hy] Hr IH]; [done|].
  cbn [insert_sorted]. rewrite (compare_docs_integers o x y kx ky Hx Hy).
  assert (Hkx : order_key (order_field o) x = kx) by (unfold order_key; by rewrite Hx).
  assert (Hky : order_key (order_field o) y = ky) by (unfold order_key; by rewrite Hy).
  destruct (if String.eqb (direction o) "desc" then kx <? ky else ky <? kx) eqn:E;
    [|done].
  assert (Hne : kx ≠ ky).
  { intros ->. destruct (String.eqb (direction o) "desc");
      by rewrite Z.ltb_irrefl in E. }
  unfold with_key in *. cbn [List.filter] in *. rewrite IH, Hkx, Hky.
  destruct (Z.eqb_spec kx k), (Z.eqb_spec ky k); try done. congruence.
Qed.

(** X12. On a field that holds integers, [orderBy] rearranges the documents
    without losing any, into ascending order of the field unless the
    direction is exactly ['desc'] (then descending), and it is stable:
    documents with the same value stay in the order they came in. *)
Theorem orderBy_on_integers (o : OrderBy) (l : list DocumentData) :
  Forall (has_integer (order_field o)) l →
  sort (compare_docs host o) l ≡ₚ l
  ∧ StronglySorted
      (λ a b, if String.eqb (direction o) "desc"
              then order_key (order_field o) b <= order_key (order_field o) a
              else order_key (order_field o) a <= order_key (order_field o) b)
      (sort (compare_docs host o) l)
  ∧ ∀ k, with_key (order_field o) k (sort (compare_docs host o) l)
         = with_key (order_field o) k l.
Proof.
  intros Hl. split; [apply sort_perm|split].
  - by apply orderBy_sorts_integer_field.
  - intros k. induction Hl as [|x r Hx Hr IH]; [done|].
    change (sort (compare_docs host o) (x :: r))
      with (insert_sorted (compare_docs host o) x (sort (compare_docs host o) r)).
    rewrite insert_sorted_with_key; [|done|by rewrite sort_perm].
    unfold with_key in *. cbn [List.filter]. by rewrite IH.
Qed.
End Ordering.

(** ** Operators *)

Section Operators.
Variable host : Host.

(** X13. When both sides coerce to dates, the five comparison operators
    compare the two millisecond instants and every other operator keeps
    nothing; an invalid date matches under no operator. *)
Theorem date_operators_compare_instants (f : Filter) (d : DocumentData) (a b : num) :
  toDate host (docValue_of f d) = VDate a →
  toDate host (filter_value f) = VDate b →
  matches host f d
  = match a, b with
    | Int x, Int y =>
        if String.eqb (op f) "==" then x =? y
        else if String.eqb (op f) ">=" then y <=? x
        else if String.eqb (op f) "<=" then x <=? y
        else if String.eqb (op f) ">" then y <? x
        else if String.eqb (op f) "<" then x <? y
        else false
    | _, _ => false
    end.
Proof.
  intros Ha Hb. unfold matches. cbv zeta. rewrite Ha, Hb.
  unfold ge, le, gt, lt, js_lt. simpl.
  destruct a as [|x], b as [|y]; simpl;
    repeat (destruct (String.eqb (op f) _); [try done|]); try done.
  all: destruct (Z.ltb_spec x y), (Z.ltb_spec y x), (Z.leb_spec x y), (Z.leb_spec y x);
    simpl; try done; try lia.
Qed.

Lemma toDate_integer x : toDate host (VNum (Int x)) = VNum (Int x).
Proof. unfold toDate. simpl. by destruct (x =? 0). Qed.

(** X14. Between an integer field and an integer comparison value the six
    comparison operators compare the integers; [not-in], whose value should
    be an array, keeps the document, and the other operators drop it. *)
Theorem integer_operators (f : Filter) (d : DocumentData) (x y : Z) :
  docValue_of f d = VNum (Int x) →
  filter_value f = VNum (Int y) →
  matches host f d
  = if String.eqb (op f) "==" then x =? y
    else if String.eqb (op f) "!=" then negb (x =? y)
    else if String.eqb (op f) ">" then y <? x
    else if String.eqb (op f) ">=" then y <=? x
    else if String.eqb (op f) "<" then x <? y
    else if String.eqb (op f) "<=" then x <=? y
    else String.eqb (op f) "not-in".
Proof.
  intros Hd Hv. unfold matches. cbv zeta. rewrite Hd, Hv, !toDate_integer.
  unfold ge, le, gt, lt, js_lt. simpl.
  repeat match goal with
    | |- context [String.eqb (op f) ?s] =>
        destruct (String.eqb_spec (op f) s) as [E|_];
        [rewrite E; simpl;
         try done;
         destruct (Z.ltb_spec x y), (Z.ltb_spec y x),
           (Z.leb_spec x y), (Z.leb_spec y x); simpl; try done; lia|]
    end.
  done.
Qed.




(** X16. With an array as comparison value, [in] keeps a document exactly
    when its field value is one of the elements, and [not-in] keeps exactly
    the documents that [in] drops; date coercion plays no part. *)
Theorem in_and_not_in_partition (fld : string) (l : list value) (d : DocumentData) :
  let f o := {| field := fld; op := o; filter_value := VArr l |} in
  matches host (f "in") d = includes l (docValue_of (f "in") d)
  ∧ matches host (f "not-in") d = negb (matches host (f "in") d).
Proof.
  intros f. unfold matches. cbv zeta.
  change (docValue_of (f "not-in") d) with (docValue_of (f "in") d).
  change (filter_value (f "in")) with (VArr l).
  change (filter_value (f "not-in")) with (VArr l).
  change (toDate host (VArr l)) with (VArr l).
  by destruct (toDate host (docValue_of (f "in") d)).
Qed.

Lemma toDate_string s :
  toDate host (VStr s)
  = match s, string_to_number host s, date_parse host s with
    | String _ _, NaN, Int t => VDate (Int t)
    | _, _, _ => VStr s
    end.
Proof.
  destruct s as [|c s]; [done|]. unfold toDate. simpl.
  by destruct (string_to_number host (String c s)), (date_parse host (String c s)).
Qed.

(** X17. Two strings are compared as dates when both are non-empty, are not
    numbers and parse as dates: then [==] holds exactly when the instants
    are equal, even between different strings. A string that does not parse
    as a date is compared as a string. *)
Theorem strings_compared_as_dates (f : Filter) (d : DocumentData)
  (a b : string) :
  docValue_of f d = VStr a → filter_value f = VStr b → op f = "==" →
  (∀ ta tb, a ≠ "" → b ≠ "" →
            string_to_number host a = NaN → date_parse host a = Int ta →
            string_to_number host b = NaN → date_parse host b = Int tb →
            matches host f d = (ta =? tb))
  ∧ (date_parse host a = NaN → matches host f d = String.eqb a b).
Proof.
  intros Hd Hv Ho. unfold matches. cbv zeta.
  rewrite Hd, Hv, Ho, !toDate_string. split.
  - intros ta tb Ha Hb Na Da Nb Db.
    destruct a as [|ca a]; [done|]. destruct b as [|cb b]; [done|].
    cbv iota beta. by rewrite Na, Da, Nb, Db.
  - intros Da. destruct a as [|ca a]; [done|].
    cbv iota beta. rewrite Da.
    by destruct (string_to_number host (String ca a)).
Qed.
End Operators.

(** ** Reads *)

Section Reads.
Variable host : Host.

Lemma same_store_getDocMock c id m : same_store m (getDocMock host c id m).2.
Proof. split; [apply getDocMock_dbData|apply getDocMock_operations]. Qed.

Lemma same_store_getCollectionMock c m : same_store m (getCollectionMock c m).2.
Proof. unfold getCollectionMock. by destruct (collectionMocks m !! c). Qed.

Lemma same_store_trans m1 m2 m3 :
  same_store m1 m2 → same_store m2 m3 → same_store m1 m3.
Proof. intros [? ?] [? ?]. split; congruence. Qed.

Lemma same_store_snapshots c l m : same_store m (snapshots host c l m).2.
Proof.
  revert m. induction l as [|d r IH]; intros m; cbn [snapshots]; [done|].
  pose proof (same_store_getDocMock c (prop (VObj d) "id") m) as H1.
  destruct (getDocMock host c (prop (VObj d) "id") m) as [h m1].
  specialize (IH m1).
  destruct (snapshots host c r m1) as [snaps m2]. cbn [fst snd] in *.
  by eapply same_store_trans.
Qed.

(** X18. Reading never writes: evaluating a query, reading a document,
    asking for a collection, a document mock or a subcollection leaves the
    store and the batch queue as they were. *)
Theorem reads_never_write (q : QueryChain) (h : DocMock) (cm : CollectionMock)
  (id : option string) (path sub : string) (m : Mock) :
  same_store m (query_get host q m).2
  ∧ same_store m (doc_get host h m).2
  ∧ same_store m (collection path m).2
  ∧ same_store m (coll_doc host cm id m).2
  ∧ same_store m (doc_collection h sub m).2
  ∧ ∀ r, doc host path m = Returned r → same_store m r.2.
Proof.
  repeat split.
  - unfold query_get.
    pose proof (same_store_snapshots (query_path q) (selected host q (dbData m)) m)
      as [H _].
    by destruct (snapshots host _ _ m).
  - unfold query_get.
    pose proof (same_store_snapshots (query_path q) (selected host q (dbData m)) m)
      as [_ H].
    by destruct (snapshots host _ _ m).
  - unfold doc_get.
    pose proof (same_store_getDocMock (collectionPath h) (docId h) m) as [H _].
    by destruct (getDocMock host _ _ m).
  - unfold doc_get.
    pose proof (same_store_getDocMock (collectionPath h) (docId h) m) as [_ H].
    by destruct (getDocMock host _ _ m).
  - apply same_store_getCollectionMock.
  - apply same_store_getCollectionMock.
  - unfold coll_doc. destruct id as [[|a s]|]; simpl;
      by rewrite getDocMock_dbData.
  - unfold coll_doc. destruct id as [[|a s]|]; simpl;
      by rewrite getDocMock_operations.
  - apply same_store_getCollectionMock.
  - apply same_store_getCollectionMock.
  - unfold doc in H.
    destruct (segment (split "/" path) 0), (segment (split "/" path) 1); try done.
    injection H as <-. apply getDocMock_dbData.
  - unfold doc in H.
    destruct (segment (split "/" path) 0), (segment (split "/" path) 1); try done.
    injection H as <-. apply getDocMock_operations.
Qed.
End Reads.

(** ** Timestamps and the deep clone *)

Lemma value_nested_ind (P : value → Prop) :
  P VUndefined → P VNull → (∀ b, P (VBool b)) → (∀ n, P (VNum n)) →
  (∀ s, P (VStr s)) → (∀ t, P (VDate t)) →
  (∀ l, Forall P l → P (VArr l)) →
  (∀ o, Forall (λ kv, P kv.2) o → P (VObj o)) →
  (∀ r, P r → P (VFun r)) →
  ∀ v, P v.
Proof.
  intros HU HN HB HNum HS HD HA HO HF. fix IH 1.
  intros [| |b|n|s|t|l|o|r];
    [exact HU|exact HN|apply HB|apply HNum|apply HS|apply HD| | |apply HF, IH].
  - apply HA. induction l as [|x l IHl]; constructor; [apply IH|exact IHl].
  - apply HO. induction o as [|[k x] o IHo]; constructor; [apply IH|exact IHo].
Qed.


(** [new Date(s * 1000 + n / 1e6)] for the seconds and nanoseconds of an
    instant. *)
Lemma decoded_instant (t : Z) :
  -8639999999999000 <= t <= 8640000000000000 →
  time_clip (t / 1000 * 1000000000 + Z.rem t 1000 * 1000000) 1000000
  = Int (if (t <? 0) && negb (t mod 1000 =? 0) then t - 1000 else t).
Proof.
  intros Ht.
  set (r := if (t <? 0) && negb (t mod 1000 =? 0) then t - 1000 else t).
  assert (Hq : t / 1000 * 1000000000 + Z.rem t 1000 * 1000000 = r * 1000000).
  { unfold r. destruct (Z.ltb_spec t 0), (Z.eqb_spec (t mod 1000) 0); simpl;
      Z.to_euclidean_division_equations; nia. }
  assert (Hr : -8640000000000000 <= r <= 8640000000000000).
  { unfold r. destruct (Z.ltb_spec t 0), (Z.eqb_spec (t mod 1000) 0); simpl; lia. }
  unfold time_clip. rewrite Hq.
  destruct (Z.ltb_spec (8640000000000000 * 1000000) (Z.abs (r * 1000000))); [lia|].
  f_equal. apply Z.quot_mul. lia.
Qed.

Section Timestamps.
Variable host : Host.

(** X19. The [_seconds] and [_nanoseconds] of a Timestamp encode its
    instant for dates from 1970 on: read back as [_seconds * 1000 +
    _nanoseconds / 1e6], by the filter's date coercion, they give the same
    millisecond count. For an earlier instant that is not a whole second
    they give the instant one second earlier. *)
Theorem timestamp_fields_decode (t : Z) :
  -8639999999999000 <= t <= 8640000000000000 →
  toDate host (timestamp_fields (Int t))
  = VDate (Int (if (t <? 0) && negb (t mod 1000 =? 0) then t - 1000 else t))
  ∧ prop (Timestamp_fromDate (Int t)) "_seconds"
    = prop (timestamp_fields (Int t)) "_seconds"
  ∧ prop (Timestamp_fromDate (Int t)) "_nanoseconds"
    = prop (timestamp_fields (Int t)) "_nanoseconds"
  ∧ prop (Timestamp_fromMillis (Int t)) "_seconds"
    = prop (timestamp_fields (Int t)) "_seconds"
  ∧ prop (Timestamp_fromMillis (Int t)) "_nanoseconds"
    = prop (timestamp_fields (Int t)) "_nanoseconds".
Proof.
  intros Ht. split; [|done].
  pose proof (decoded_instant t Ht) as Hclip.
  set (r := if (t <? 0) && negb (t mod 1000 =? 0) then t - 1000 else t) in *.
  unfold toDate, timestamp_fields. simpl.
  destruct (Z.rem t 1000 * 1000000 =? 0) eqn:E; simpl.
  - apply Z.eqb_eq in E. rewrite E in Hclip. by rewrite Hclip.
  - by rewrite Hclip.
Qed.

(** X26. An object that carries the [_seconds] and [_nanoseconds] of an
    instant and no [toDate], as a Timestamp is left by serialization, is
    cloned into the live Timestamp of the instant these fields decode to:
    for an instant from 1970 on that is the clone of the Timestamp itself.
    Any other field of the object is dropped. *)
Theorem stored_timestamp_is_revived (t : Z) (o : omap value) :
  -8639999999999000 <= t <= 8640000000000000 →
  truthy (prop (VObj o) "toDate") = false →
  omap_get "_seconds" o = Some (VNum (seconds_of (Int t))) →
  omap_get "_nanoseconds" o = Some (VNum (nanoseconds_of (Int t))) →
  deepCloneWithTimestamp host (VObj o)
  = Some (clonedTimestamp
            (Int (if (t <? 0) && negb (t mod 1000 =? 0) then t - 1000 else t)))
  ∧ (0 <= t →
     deepCloneWithTimestamp host (VObj o)
     = deepCloneWithTimestamp host (Timestamp_fromDate (Int t))).
Proof.
  intros Ht Hd Hs Hn.
  set (r := if (t <? 0) && negb (t mod 1000 =? 0) then t - 1000 else t).
  assert (Hc : deepCloneWithTimestamp host (VObj o) = Some (clonedTimestamp (Int r))).
  { assert (Hl : looks_like_timestamp (VObj o) = true).
    { unfold looks_like_timestamp, prop. rewrite Hs, Hn. simpl.
      apply orb_true_r. }
    assert (Hdate : date_of_seconds_nanos
                      (to_number host (prop (VObj o) "_seconds"))
                      (to_number host (prop (VObj o) "_nanoseconds"))
                    = VDate (Int r)).
    { unfold prop. rewrite Hs, Hn.
      change (to_number host (VNum (seconds_of (Int t)))) with (Int (t / 1000)).
      change (to_number host (VNum (nanoseconds_of (Int t))))
        with (Int (Z.rem t 1000 * 1000000)).
      unfold date_of_seconds_nanos. by rewrite (decoded_instant t Ht). }
    cbn [deepCloneWithTimestamp]. rewrite Hl.
    unfold rebuildTimestamp. by rewrite Hd, Hdate. }
  split; [exact Hc|].
  intros H0. rewrite Hc. unfold r.
  destruct (Z.ltb_spec t 0); [lia|]. done.
Qed.

End Timestamps.

(** ** Creating an instance *)

Lemma named_keys_enumerate_in_place {A} (o : omap A) :
  Forall (λ kv, array_index kv.1 = None) o → Object_entries o = o.
Proof.
  intros H. unfold Object_entries.
  assert (Hi : index_entries o = []).
  { induction H as [|[k v] r Hk Hr IH]; simpl in *; [done|]. by rewrite Hk. }
  assert (Hn : named_entries o = o).
  { clear Hi. induction H as [|[k v] r Hk Hr IH]; simpl in *; [done|].
    by rewrite Hk, IH. }
  by rewrite Hi, Hn.
Qed.

Lemma db_of_value_of_db (db : MockDbData) : db_of_value (value_of_db db) = Some db.
Proof.
  unfold db_of_value, value_of_db.
  induction db as [|[c coll] r IH]; simpl; [done|].
  assert (Hc : docs_of_entries (map (λ df, (df.1, VObj df.2)) coll) = Some coll).
  { clear IH. induction coll as [|[d f] coll IHc]; simpl; [done|]. by rewrite IHc. }
  by rewrite Hc, IH.
Qed.

Section Creation.
Variable host : Host.

(** The deep clone leaves plain data as it is. *)
Lemma clone_plain (v : value) :
  plain v = true → deepCloneWithTimestamp host v = Some v.
Proof.
  induction v as [| | | | | |l IHl|o IHo|r _] using value_nested_ind;
    try done.
  - intros Hp. simpl in Hp. simpl.
    induction IHl as [|x l Hx Hl IH]; [done|].
    simpl in Hp. apply andb_true_iff in Hp as [Hpx Hpl].
    rewrite (Hx Hpx). specialize (IH Hpl).
    destruct ((fix each (l0 : list value) : option (list value) := _) l);
      [|done].
    by injection IH as ->.
  - intros Hp. cbn [plain] in Hp. apply andb_true_iff in Hp as [Hts Hp].
    apply negb_true_iff in Hts. cbn [deepCloneWithTimestamp]. rewrite Hts.
    assert (Hn : Forall (λ kv : string * value, array_index kv.1 = None) o).
    { clear IHo Hts. induction o as [|[k x] o IH]; [constructor|].
      simpl in Hp. apply andb_true_iff in Hp as [Hk Hp].
      constructor; [|by apply IH]. simpl. by destruct (array_index k). }
    assert (He : (fix each (o0 : list (string * value))
                    : option (list (string * value)) :=
                    match o0 with
                    | [] => Some []
                    | (k, v) :: r =>
                        match deepCloneWithTimestamp host v, each r with
                        | Some v', Some r' => Some ((k, v') :: r')
                        | _, _ => None
                        end
                    end) o = Some o).
    { clear Hts Hn. induction IHo as [|[k x] o Hx Ho IH]; [done|].
      simpl in Hp. apply andb_true_iff in Hp as [Hk Hp].
      destruct (array_index k); [done|]. simpl in Hx.
      by rewrite (Hx Hk), (IH Hp). }
    rewrite He. simpl. by rewrite named_keys_enumerate_in_place.
Qed.

(** X21. A seed of plain data (no closures, nothing the clone takes for a
    Timestamp, no array-index keys) becomes the store as it is: the instance
    is created with the store equal to the seed, no mock memoized and an
    empty batch. *)
Theorem plain_seed_is_the_store (seed : MockDbData) :
  plain (value_of_db seed) = true →
  createFirestoreMock host seed = Created (fresh_mock seed).
Proof.
  intros Hp. unfold createFirestoreMock.
  by rewrite (clone_plain _ Hp), db_of_value_of_db.
Qed.
End Creation.

(** ** Adding documents and descending into subcollections *)

Lemma append_length (s t : string) :
  String.length (s +:+ t) = (String.length s + String.length t)%nat.
Proof. induction s as [|c s IH]; simpl; [done|]. by rewrite IH. Qed.

Lemma append_grows (s t : string) : t ≠ "" → s +:+ t ≠ s.
Proof.
  intros Ht Heq. apply (f_equal String.length) in Heq.
  rewrite append_length in Heq. destruct t; [done|]. simpl in Heq. lia.
Qed.

Lemma append_assoc (s t u : string) : (s +:+ t) +:+ u = s +:+ (t +:+ u).
Proof.
  induction s as [|c s IH]; [done|].
  change (String c ((s +:+ t) +:+ u) = String c (s +:+ t +:+ u)).
  by rewrite IH.
Qed.

Section Collections.
Variable host : Host.

(** X22. [add(data)] stores the data under the id [new-doc-<random>], in a
    collection created on demand, leaves every other document alone, and
    returns the mock memoized for that id; when that mock is new, reading
    through it gives the data back. *)
Theorem add_stores_the_document (cm : CollectionMock) (fields : DocumentData)
  (m : Mock) :
  let newId := "new-doc-" +:+ math_random host (draws m) in
  let h := (coll_add host cm fields m).1 in
  let m1 := (coll_add host cm fields m).2 in
  read_doc (dbData m1) (coll_path cm) newId = Some fields
  ∧ (∀ c d, (c, d) ≠ (coll_path cm, newId) →
            read_doc (dbData m1) c d = read_doc (dbData m) c d)
  ∧ docMocks m1 !! (coll_path cm +:+ "/" +:+ newId) = Some h
  ∧ draws m1 = S (draws m)
  ∧ (docMocks m !! (coll_path cm +:+ "/" +:+ newId) = None →
     addresses h (coll_path cm) newId
     ∧ exists_ (doc_get host h m1).1 = true
     ∧ call_data (data (doc_get host h m1).1) (doc_get host h m1).2 = Some fields).
Proof.
  intros newId h m1.
  set (db := assign_doc (coll_path cm) newId fields
               (ensure_collection (coll_path cm) (dbData m))).
  set (m0 := with_dbData db (random host m).2).
  assert (Hadd : coll_add host cm fields m
                 = getDocMock host (coll_path cm) (VStr newId) m0) by done.
  assert (Hdb : dbData m1 = db).
  { unfold m1. rewrite Hadd, getDocMock_dbData. done. }
  assert (Hread : read_doc db (coll_path cm) newId = Some fields).
  { apply read_doc_assign, ensure_collection_present. }
  assert (Hmemo : docMocks m1 !! (coll_path cm +:+ "/" +:+ newId) = Some h).
  { unfold m1, h. rewrite Hadd.
    apply (getDocMock_lookup host (coll_path cm) (VStr newId) m0). }
  split; [by rewrite Hdb|]. split.
  { intros c d Hne. rewrite Hdb. unfold db.
    by rewrite read_doc_assign_other, read_doc_ensure. }
  split; [done|]. split.
  { unfold m1. rewrite Hadd. unfold getDocMock. cbv zeta.
    by destruct (docMocks m0 !! _). }
  intros Hnone.
  assert (Hh : h = {| mock_ref := allocated m; collectionPath := coll_path cm;
                      docId := VStr newId;
                      doc_path := coll_path cm +:+ "/" +:+ newId |}).
  { unfold h. rewrite Hadd. unfold getDocMock. cbv zeta.
    change (to_string host (VStr newId)) with newId.
    change (docMocks m0) with (docMocks m). by rewrite Hnone. }
  split; [by rewrite Hh|].
  pose proof (doc_get_snapshot host h m1 (doc_get host h m1).2) as [He Hd].
  rewrite He, Hd.
  assert (Hk : read_doc (dbData m1) (collectionPath h) (doc_key host h) = Some fields).
  { rewrite Hh. unfold doc_key. simpl. by rewrite Hdb. }
  pose proof (getDocMock_dbData host (collectionPath h) (docId h) m1) as Hg.
  unfold doc_get. destruct (getDocMock host _ _ m1) as [self m2].
  cbn [fst snd] in *. rewrite Hg, Hk. split; [|done].
  apply bool_decide_eq_true. by eexists.
Qed.

Lemma getCollectionMock_miss (c : string) (m : Mock) :
  collectionMocks m !! c = None →
  getCollectionMock c m
  = ({| coll_ref := allocated m; coll_path := c |},
     {| dbData := dbData m; operations := operations m;
        collectionMocks :=
          <[c := {| coll_ref := allocated m; coll_path := c |}]> (collectionMocks m);
        docMocks := docMocks m;
        allocated := S (allocated m); draws := draws m |}).
Proof. intros H. unfold getCollectionMock. by rewrite H. Qed.

Lemma getDocMock_miss (c d : string) (m : Mock) :
  docMocks m !! (c +:+ "/" +:+ d) = None →
  getDocMock host c (VStr d) m
  = ({| mock_ref := allocated m; collectionPath := c; docId := VStr d;
        doc_path := c +:+ "/" +:+ d |},
     {| dbData := dbData m; operations := operations m;
        collectionMocks := collectionMocks m;
        docMocks :=
          <[c +:+ "/" +:+ d :=
              {| mock_ref := allocated m; collectionPath := c; docId := VStr d;
                 doc_path := c +:+ "/" +:+ d |}]> (docMocks m);
        allocated := S (allocated m); draws := draws m |}).
Proof.
  intros H. unfold getDocMock. cbv zeta.
  change (to_string host (VStr d)) with d. by rewrite H.
Qed.

(** X23. On an instance that has created no mock yet, descending
    [collection(c).doc(d).collection(sub)] gives the collection of path
    [c/d/sub], the same object that [collection('c/d/sub')] returns
    afterwards; a document mock obtained from it addresses that collection,
    and a [set] through it is stored there. *)
Theorem subcollection_descent (db : MockDbData) (c d sub id : string)
  (fields : DocumentData) :
  d ≠ "" → id ≠ "" →
  let path := (c +:+ "/" +:+ d) +:+ "/" +:+ sub in
  let m1 := (collection c (fresh_mock db)).2 in
  let parent := (coll_doc host (collection c (fresh_mock db)).1 (Some d) m1).1 in
  let m2 := (coll_doc host (collection c (fresh_mock db)).1 (Some d) m1).2 in
  let posts := (doc_collection parent sub m2).1 in
  let m3 := (doc_collection parent sub m2).2 in
  let post := (coll_doc host posts (Some id) m3).1 in
  let m4 := (coll_doc host posts (Some id) m3).2 in
  coll_path posts = path
  ∧ query_path (createQueryChain posts) = path
  ∧ (collection path m4).1 = posts
  ∧ addresses post path id
  ∧ read_doc (dbData (doc_set host post fields None m4)) path id = Some fields.
Proof.
  intros Hd Hid path. cbv zeta.
  assert (Hne : c ≠ path).
  { unfold path. rewrite append_assoc. intros Heq. symmetry in Heq.
    by apply append_grows in Heq. }
  assert (Hne2 : c +:+ "/" +:+ d ≠ path +:+ "/" +:+ id).
  { unfold path. rewrite append_assoc. intros Heq. symmetry in Heq.
    by apply append_grows in Heq. }
  set (cm0 := {| coll_ref := 0; coll_path := c |}).
  set (M1 := {| dbData := db; operations := [];
                collectionMocks := <[c := cm0]> ∅; docMocks := ∅;
                allocated := 1; draws := 0 |}).
  assert (E1 : collection c (fresh_mock db) = (cm0, M1)).
  { unfold collection. by rewrite getCollectionMock_miss by apply lookup_empty. }
  set (parent := {| mock_ref := 1; collectionPath := c; docId := VStr d;
                    doc_path := c +:+ "/" +:+ d |}).
  set (M2 := {| dbData := db; operations := [];
                collectionMocks := <[c := cm0]> ∅;
                docMocks := <[c +:+ "/" +:+ d := parent]> ∅;
                allocated := 2; draws := 0 |}).
  assert (E2 : coll_doc host cm0 (Some d) M1 = (parent, M2)).
  { rewrite coll_doc_named by done.
    by rewrite getDocMock_miss by apply lookup_empty. }
  set (posts := {| coll_ref := 2; coll_path := path |}).
  set (M3 := {| dbData := db; operations := [];
                collectionMocks := <[path := posts]> (<[c := cm0]> ∅);
                docMocks := <[c +:+ "/" +:+ d := parent]> ∅;
                allocated := 3; draws := 0 |}).
  assert (E3 : doc_collection parent sub M2 = (posts, M3)).
  { unfold doc_collection. cbn [doc_path parent]. fold path.
    rewrite getCollectionMock_miss; [done|].
    cbn [collectionMocks M2]. rewrite lookup_insert_ne by done. apply lookup_empty. }
  set (post := {| mock_ref := 3; collectionPath := path; docId := VStr id;
                  doc_path := path +:+ "/" +:+ id |}).
  set (M4 := {| dbData := db; operations := [];
                collectionMocks := <[path := posts]> (<[c := cm0]> ∅);
                docMocks := <[path +:+ "/" +:+ id := post]>
                              (<[c +:+ "/" +:+ d := parent]> ∅);
                allocated := 4; draws := 0 |}).
  assert (E4 : coll_doc host posts (Some id) M3 = (post, M4)).
  { rewrite coll_doc_named by done. cbn [coll_path posts].
    rewrite getDocMock_miss; [done|].
    cbn [docMocks M3]. rewrite lookup_insert_ne by done. apply lookup_empty. }
  rewrite E1. cbn [fst snd]. rewrite E2. cbn [fst snd]. rewrite E3.
  cbn [fst snd]. rewrite E4. cbn [fst snd].
  split; [done|]. split; [done|]. split.
  { unfold collection. erewrite getCollectionMock_hit; [done|].
    cbn [collectionMocks M4]. apply lookup_insert_eq. }
  split; [done|].
  exact (proj1 (doc_set_plain host post fields None M4 eq_refl)).
Qed.

(** X24. A document id that contains a slash collides with a subcollection
    address: [collection(c).doc('d/e')] and [collection('c/d').doc('e')]
    are memoized under the same path, so the second call returns the mock
    of the first, and what is written through it lands in collection [c]
    under the id [d/e]. *)
Theorem slash_in_id_collides (c d e : string) (fields : DocumentData) (m : Mock) :
  docMocks m !! (c +:+ "/" +:+ d +:+ "/" +:+ e) = None →
  let h1 := (getDocMock host c (VStr (d +:+ "/" +:+ e)) m).1 in
  let m1 := (getDocMock host c (VStr (d +:+ "/" +:+ e)) m).2 in
  let h2 := (getDocMock host (c +:+ "/" +:+ d) (VStr e) m1).1 in
  let m2 := (getDocMock host (c +:+ "/" +:+ d) (VStr e) m1).2 in
  h2 = h1
  ∧ read_doc (dbData (doc_set host h2 fields None m2)) c (d +:+ "/" +:+ e)
    = Some fields
  ∧ (c +:+ "/" +:+ d ≠ c →
     read_doc (dbData (doc_set host h2 fields None m2)) (c +:+ "/" +:+ d) e
     = read_doc (dbData m) (c +:+ "/" +:+ d) e).
Proof.
  intros Hnone h1 m1 h2 m2.
  assert (Hp : (c +:+ "/" +:+ d) +:+ "/" +:+ e = c +:+ "/" +:+ d +:+ "/" +:+ e).
  { by rewrite !append_assoc. }
  assert (Hh1 : h1 = {| mock_ref := allocated m; collectionPath := c;
                        docId := VStr (d +:+ "/" +:+ e);
                        doc_path := c +:+ "/" +:+ d +:+ "/" +:+ e |}).
  { unfold h1, getDocMock. cbv zeta.
    change (to_string host (VStr (d +:+ "/" +:+ e))) with (d +:+ "/" +:+ e).
    by rewrite Hnone. }
  assert (Hhit : getDocMock host (c +:+ "/" +:+ d) (VStr e) m1 = (h1, m1)).
  { apply getDocMock_hit. change (to_string host (VStr e)) with e. rewrite Hp.
    apply (getDocMock_lookup host c (VStr (d +:+ "/" +:+ e)) m). }
  assert (H2 : h2 = h1) by (unfold h2; by rewrite Hhit).
  assert (Hm2 : m2 = m1) by (unfold m2; by rewrite Hhit).
  split; [done|].
  pose proof (doc_set_plain host h2 fields None m2 eq_refl) as [Hr _].
  rewrite H2, Hh1 in Hr. rewrite H2, Hh1. split; [exact Hr|].
  intros Hne.
  pose proof (doc_set_other host
                {| mock_ref := allocated m; collectionPath := c;
                   docId := VStr (d +:+ "/" +:+ e);
                   doc_path := c +:+ "/" +:+ d +:+ "/" +:+ e |}
                fields None m2 (c +:+ "/" +:+ d) e) as Hf.
  rewrite Hf; [|intros [= Heq _]; done].
  rewrite Hm2. unfold m1. by rewrite getDocMock_dbData.
Qed.
End Collections.

(** ** The further properties at concrete inputs *)

Lemma set_then_get_witness :
  let h := {| mock_ref := 0; collectionPath := "new_items"; docId := VStr "new_doc";
              doc_path := "new_items/new_doc" |} in
  let fields := [("name", VStr "Hello World")] in
  let m1 := doc_set sample_host h fields None (fresh_mock []) in
  (merge_requested None = false
   ∨ read_doc (dbData (fresh_mock [])) (collectionPath h) (doc_key sample_host h) = None)
  ∧ exists_ (doc_get sample_host h m1).1 = true
  ∧ call_data (data (doc_get sample_host h m1).1) (doc_get sample_host h m1).2
    = Some fields.
Proof.
  intros h fields m1. split; [by left|].
  pose proof (set_then_get sample_host h fields None (fresh_mock [])
                (or_introl eq_refl)) as H.
  cbv zeta in H. destruct H as (H1 & H2 & _). by split.
Defined.



Lemma writes_leave_other_documents_witness :
  let h := {| mock_ref := 0; collectionPath := "items"; docId := VStr "item1";
              doc_path := "items/item1" |} in
  let m := fresh_mock [("items", [("item1", [("name", VStr "A")]);
                                  ("item2", [("name", VStr "B")])])] in
  ("items", "item2") ≠ (collectionPath h, doc_key sample_host h)
  ∧ read_doc (dbData (doc_set sample_host h [("name", VStr "C")] None m)) "items" "item2"
    = read_doc (dbData m) "items" "item2"
  ∧ read_doc (dbData (doc_delete sample_host h m)) "items" "item2"
    = read_doc (dbData m) "items" "item2".
Proof.
  intros h m.
  assert (Hne : ("items", "item2") ≠ (collectionPath h, doc_key sample_host h))
    by discriminate.
  split; [done|].
  destruct (writes_leave_other_documents sample_host h [("name", VStr "C")] None m
              "items" "item2" Hne) as (H1 & _ & H3).
  by split.
Defined.

Lemma get_ref_is_the_mock_witness :
  let h := (getDocMock sample_host "items" (VStr "item1") (fresh_mock [])).1 in
  let m := (getDocMock sample_host "items" (VStr "item1") (fresh_mock [])).2 in
  docMocks m !! (collectionPath h +:+ "/" +:+ doc_key sample_host h) = Some h
  ∧ ref (doc_get sample_host h m).1 = h.
Proof.
  intros h m.
  assert (Hm : docMocks m !! (collectionPath h +:+ "/" +:+ doc_key sample_host h)
               = Some h)
    by exact (getDocMock_lookup sample_host "items" (VStr "item1") (fresh_mock [])).
  split; [done|].
  exact (proj1 (get_ref_is_the_mock sample_host h m Hm)).
Defined.


Lemma batch_matches_direct_write_witness :
  let h := {| mock_ref := 0; collectionPath := "items"; docId := VStr "item1";
              doc_path := "items/item1" |} in
  let fields := [("name", VStr "Brand New Item")] in
  let m := fresh_mock [("items", [("item1", [("name", VStr "Item One")])])] in
  (addresses h "items" "item1" ∧ operations m = [] ∧ merge_requested None = false)
  ∧ dbData (commit (batch_delete h m)) = dbData (doc_delete sample_host h m)
  ∧ dbData (commit (batch_set h fields None m))
    = dbData (doc_set sample_host h fields None m).
Proof.
  intros h fields m.
  assert (A : addresses h "items" "item1") by by repeat split.
  split; [by repeat split|].
  exact (batch_matches_direct_write sample_host h "items" "item1" fields None m
           A eq_refl eq_refl eq_refl eq_refl).
Defined.


Lemma unfiltered_query_lists_the_collection_witness :
  let cm := {| coll_ref := 0; coll_path := "items" |} in
  let coll := [("item1", [("name", VStr "A")]); ("item2", [("name", VStr "B")])] in
  let m := fresh_mock [("items", coll)] in
  (omap_get (coll_path cm) (dbData m) = Some coll
   ∧ Forall (λ kf : string * DocumentData,
               is_object_map kf.2 ∧ omap_get "id" kf.2 = None) coll)
  ∧ size (query_get sample_host (createQueryChain cm) m).1 = 2%nat.
Proof.
  intros cm coll m.
  assert (Hdb : omap_get (coll_path cm) (dbData m) = Some coll) by reflexivity.
  assert (Hwf : Forall (λ kf : string * DocumentData,
                          is_object_map kf.2 ∧ omap_get "id" kf.2 = None) coll).
  { repeat (constructor; [split; [apply NoDup_singleton|reflexivity]|]).
    constructor. }
  split; [by split|].
  exact (proj2 (proj1 (unfiltered_query_lists_the_collection sample_host cm m coll)
                  Hdb Hwf)).
Defined.

Lemma orderBy_on_integers_witness :
  let o := {| order_field := "order"; direction := "desc" |} in
  let l := map snd items_ABC in
  Forall (has_integer (order_field o)) l
  ∧ sort (compare_docs sample_host o) l ≡ₚ l
  ∧ ∀ k, with_key "order" k (sort (compare_docs sample_host o) l)
         = with_key "order" k l.
Proof.
  intros o l.
  assert (Hl : Forall (has_integer (order_field o)) l).
  { repeat constructor; eexists; reflexivity. }
  split; [done|].
  destruct (orderBy_on_integers sample_host o l Hl) as (H1 & _ & H3). by split.
Defined.

Lemma date_operators_compare_instants_witness :
  let f := {| field := "eventDate"; op := ">";
              filter_value := VDate (Int 86400000) |} in
  let d := [("id", VStr "event-tomorrow");
            ("eventDate", Timestamp_fromDate (Int 172800000))] in
  (toDate sample_host (docValue_of f d) = VDate (Int 172800000)
   ∧ toDate sample_host (filter_value f) = VDate (Int 86400000))
  ∧ matches sample_host f d = true.
Proof.
  intros f d. split; [by split|].
  exact (date_operators_compare_instants sample_host f d
           (Int 172800000) (Int 86400000) eq_refl eq_refl).
Defined.

Lemma integer_operators_witness :
  let f := {| field := "age"; op := ">"; filter_value := VNum (Int 25) |} in
  let d := [("id", VStr "user1"); ("name", VStr "Alice"); ("age", VNum (Int 30))] in
  (docValue_of f d = VNum (Int 30) ∧ filter_value f = VNum (Int 25))
  ∧ matches sample_host f d = true.
Proof.
  intros f d. split; [by split|].
  exact (integer_operators sample_host f d 30 25 eq_refl eq_refl).
Defined.


Lemma strings_compared_as_dates_witness :
  let f := {| field := "day"; op := "==";
              filter_value := VStr "2024-01-01T00:00:00.000Z" |} in
  let d := [("id", VStr "e1"); ("day", VStr "2024-01-01")] in
  (docValue_of f d = VStr "2024-01-01"
   ∧ filter_value f = VStr "2024-01-01T00:00:00.000Z" ∧ op f = "=="
   ∧ "2024-01-01" ≠ "" ∧ "2024-01-01T00:00:00.000Z" ≠ ""
   ∧ string_to_number dated_host "2024-01-01" = NaN
   ∧ date_parse dated_host "2024-01-01" = Int 1704067200000
   ∧ string_to_number dated_host "2024-01-01T00:00:00.000Z" = NaN
   ∧ date_parse dated_host "2024-01-01T00:00:00.000Z" = Int 1704067200000)
  ∧ matches dated_host f d = true.
Proof.
  intros f d.
  assert (Ha : "2024-01-01" ≠ "") by discriminate.
  assert (Hb : "2024-01-01T00:00:00.000Z" ≠ "") by discriminate.
  split; [by repeat split|].
  exact (proj1 (strings_compared_as_dates dated_host f d "2024-01-01"
                  "2024-01-01T00:00:00.000Z" eq_refl eq_refl eq_refl)
           1704067200000 1704067200000 Ha Hb eq_refl eq_refl eq_refl eq_refl).
Defined.

Lemma reads_never_write_witness :
  let m := fresh_mock [("users", [("user1", [("name", VStr "Alice")])])] in
  doc sample_host "users/user1" m
  = Returned (getDocMock sample_host "users" (VStr "user1") m)
  ∧ same_store m (getDocMock sample_host "users" (VStr "user1") m).2.
Proof.
  intros m. split; [reflexivity|].
  destruct (reads_never_write sample_host (createQueryChain {| coll_ref := 0; coll_path := "users" |})
              {| mock_ref := 0; collectionPath := "users"; docId := VStr "user1";
                 doc_path := "users/user1" |}
              {| coll_ref := 0; coll_path := "users" |} None "users/user1" "posts" m)
    as (_ & _ & _ & _ & _ & H).
  exact (H _ eq_refl).
Defined.

Lemma timestamp_fields_decode_witness :
  (-8639999999999000 <= 1500 <= 8640000000000000
   ∧ -8639999999999000 <= -1 <= 8640000000000000)
  ∧ toDate sample_host (timestamp_fields (Int 1500)) = VDate (Int 1500)
  ∧ toDate sample_host (timestamp_fields (Int (-1))) = VDate (Int (-1001)).
Proof.
  assert (H1 : -8639999999999000 <= 1500 <= 8640000000000000) by (split; discriminate).
  assert (H2 : -8639999999999000 <= -1 <= 8640000000000000) by (split; discriminate).
  split; [by split|]. split.
  - exact (proj1 (timestamp_fields_decode sample_host 1500 H1)).
  - exact (proj1 (timestamp_fields_decode sample_host (-1) H2)).
Defined.


Lemma plain_seed_is_the_store_witness :
  let seed := [("users", [("user1", [("name", VStr "Alice"); ("age", VNum (Int 30));
                                     ("tags", VArr [VStr "a"; VStr "b"])])])] in
  plain (value_of_db seed) = true
  ∧ createFirestoreMock sample_host seed = Created (fresh_mock seed).
Proof.
  intros seed. split; [reflexivity|].
  exact (plain_seed_is_the_store sample_host seed eq_refl).
Defined.

Lemma add_stores_the_document_witness :
  let cm := {| coll_ref := 0; coll_path := "items" |} in
  let fields := [("name", VStr "A brand new item")] in
  let m := fresh_mock [] in
  let h := (coll_add sample_host cm fields m).1 in
  let m1 := (coll_add sample_host cm fields m).2 in
  docMocks m !! ("items" +:+ "/" +:+ "new-doc-0.1") = None
  ∧ read_doc (dbData m1) "items" "new-doc-0.1" = Some fields
  ∧ addresses h "items" "new-doc-0.1"
  ∧ exists_ (doc_get sample_host h m1).1 = true.
Proof.
  intros cm fields m h m1.
  assert (Hn : docMocks m !! ("items" +:+ "/" +:+ "new-doc-0.1") = None)
    by apply lookup_empty.
  split; [done|].
  pose proof (add_stores_the_document sample_host cm fields m) as H.
  cbv zeta in H. destruct H as (H1 & _ & _ & _ & H5).
  destruct (H5 Hn) as (H6 & H7 & _). by repeat split.
Defined.

Lemma subcollection_descent_witness :
  let path := ("users" +:+ "/" +:+ "user1") +:+ "/" +:+ "posts" in
  let m1 := (collection "users" (fresh_mock [])).2 in
  let parent :=
    (coll_doc sample_host (collection "users" (fresh_mock [])).1 (Some "user1") m1).1 in
  let m2 :=
    (coll_doc sample_host (collection "users" (fresh_mock [])).1 (Some "user1") m1).2 in
  let posts := (doc_collection parent "posts" m2).1 in
  let m3 := (doc_collection parent "posts" m2).2 in
  let post := (coll_doc sample_host posts (Some "post1") m3).1 in
  let m4 := (coll_doc sample_host posts (Some "post1") m3).2 in
  ("user1" ≠ "" ∧ "post1" ≠ "")
  ∧ coll_path posts = path
  ∧ read_doc (dbData (doc_set sample_host post [("title", VStr "Hello")] None m4))
      path "post1" = Some [("title", VStr "Hello")].
Proof.
  intros path m1 parent m2 posts m3 post m4.
  assert (H1 : "user1" ≠ "") by discriminate.
  assert (H2 : "post1" ≠ "") by discriminate.
  split; [by split|].
  pose proof (subcollection_descent sample_host [] "users" "user1" "posts" "post1"
                [("title", VStr "Hello")] H1 H2) as H.
  cbv zeta in H. destruct H as (E1 & _ & _ & _ & E5). by split.
Defined.

Lemma slash_in_id_collides_witness :
  let m := fresh_mock [] in
  let h1 := (getDocMock sample_host "users" (VStr ("user1" +:+ "/" +:+ "posts")) m).1 in
  let m1 := (getDocMock sample_host "users" (VStr ("user1" +:+ "/" +:+ "posts")) m).2 in
  let h2 := (getDocMock sample_host ("users" +:+ "/" +:+ "user1") (VStr "posts") m1).1 in
  docMocks m !! ("users" +:+ "/" +:+ "user1" +:+ "/" +:+ "posts") = None
  ∧ h2 = h1.
Proof.
  intros m h1 m1 h2.
  assert (Hn : docMocks m !! ("users" +:+ "/" +:+ "user1" +:+ "/" +:+ "posts") = None)
    by apply lookup_empty.
  split; [done|].
  pose proof (slash_in_id_collides sample_host "users" "user1" "posts" [] m Hn) as H.
  cbv zeta in H. exact (proj1 H).
Defined.

Lemma own_id_field_wins_witness :
  let cm := {| coll_ref := 0; coll_path := "items" |} in
  let coll := [("key1", [("id", VStr "other"); ("name", VStr "A")])] in
  let m := fresh_mock [("items", coll)] in
  (omap_get (coll_path cm) (dbData m) = Some coll
   ∧ Forall (λ kf : string * DocumentData, is_object_map kf.2) coll)
  ∧ Forall2
      (λ e kf, ∀ v, omap_get "id" kf.2 = Some v →
                    snap_id e = v
                    ∧ docMocks (query_get sample_host (createQueryChain cm) m).2
                        !! (coll_path cm +:+ "/" +:+ to_string sample_host v)
                      = Some (ref e)
                    ∧ ∃ rest, data e = FixedData rest
                              ∧ omap_get "id" rest = None
                              ∧ ∀ k, k ≠ "id" → omap_get k rest = omap_get k kf.2)
      (docs (query_get sample_host (createQueryChain cm) m).1) (Object_entries coll).
Proof.
  intros cm coll m.
  assert (Hdb : omap_get (coll_path cm) (dbData m) = Some coll) by reflexivity.
  assert (Hwf : Forall (λ kf : string * DocumentData, is_object_map kf.2) coll).
  { constructor; [|constructor]. apply (bool_decide_unpack _). vm_compute. exact I. }
  split; [by split|].
  exact (own_id_field_wins sample_host cm m coll Hdb Hwf).
Defined.

Lemma stored_timestamp_is_revived_witness :
  let o := [("_seconds", VNum (Int 86400)); ("_nanoseconds", VNum (Int 0));
            ("zone", VStr "UTC")] in
  (-8639999999999000 <= 86400000 <= 8640000000000000
   ∧ truthy (prop (VObj o) "toDate") = false
   ∧ omap_get "_seconds" o = Some (VNum (seconds_of (Int 86400000)))
   ∧ omap_get "_nanoseconds" o = Some (VNum (nanoseconds_of (Int 86400000))))
  ∧ deepCloneWithTimestamp sample_host (VObj o) = Some (clonedTimestamp (Int 86400000)).
Proof.
  intros o.
  assert (Ht : -8639999999999000 <= 86400000 <= 8640000000000000)
    by (split; discriminate).
  split; [by repeat split|].
  exact (proj1 (stored_timestamp_is_revived sample_host 86400000 o Ht
                  eq_refl eq_refl eq_refl)).
Defined.

